(** * tg.controllers: the Controller of the terminal Telegram client

    A shallow embedding of [src/tg/controllers/__init__.py].  The Controller
    mutates a shared Model (chat list, selection cursor, per-chat message
    lists, pending-download registry) and talks to three collaborators: the
    View (terminal panes), the Telegram backend and the operating system.
    Every call into a collaborator is recorded, in program order, as an
    [Event] of the world's trace, so that "the handler made exactly one
    download_file call" or "nothing was drawn" are statements about lists.

    Python exceptions are explicit: a computation returns [Ok] or [Raise],
    and the [handle_exception] decorator of the update handlers turns a
    [Raise] into a log entry. *)

From Stdlib Require Import ZArith String List Lia.
From stdpp Require Import base option gmap list strings.

Local Open Scope Z_scope.
Local Open Scope string_scope.

(** ** Data model *)

(** [file["local"]] of a TDLib file: the local-availability state. *)
Record LocalFile := mkLocalFile {
  is_downloading_completed : bool;
  local_path : string
}.

(** Modelled from the spec: the fields of a message that [tg.msg.MsgProxy]
    (not under src/) exposes and the Controller reads: "content (text or typed
    media with a file reference), local-availability state of any attached
    file".  [file_id] is [None] when the content carries no file. *)
Record Content := mkContent {
  content_type : string;
  is_text : bool;
  text_content : string;
  file_id : option Z;
  size : Z;
  local : LocalFile
}.

Record Msg := mkMsg {
  msg_id : Z;
  msg_chat_id : Z;
  sender_user_id : Z;
  content : Content
}.

Record NotificationSettings := mkNotificationSettings {
  mute_for : Z
}.

Record Chat := mkChat {
  chat_id : Z;
  chat_title : string;
  chat_order : Z;
  is_pinned : bool;
  is_marked_as_unread : bool;
  unread_count : Z;
  last_read_inbox_message_id : Z;
  last_message : Msg;
  notification_settings : NotificationSettings
}.

Record User := mkUser {
  first_name : string;
  last_name : string
}.

(** The keyword arguments of [model.chats.update_chat(chat_id, **updates)]. *)
Inductive ChatField :=
| F_order (v : Z)
| F_title (v : string)
| F_is_marked_as_unread (v : bool)
| F_is_pinned (v : bool)
| F_last_read_inbox_message_id (v : Z)
| F_unread_count (v : Z)
| F_last_message (v : Msg)
| F_notification_settings (v : NotificationSettings).

(** The Store the Controller shares with the update thread. *)
Record Model := mkModel {
  chats : list Chat;                 (* model.chats.chats *)
  current_chat : nat;                (* model.current_chat *)
  msgs : gmap Z (list Msg);          (* model.msgs.msgs *)
  current_msgs : gmap Z Z;           (* per-chat message cursor *)
  downloads : gmap Z (Z * Z);        (* model.downloads *)
  me_id : Z                          (* id of the local user *)
}.

Definition set_notification_settings (ns : NotificationSettings) (c : Chat)
  : Chat :=
  mkChat (chat_id c) (chat_title c) (chat_order c) (is_pinned c)
    (is_marked_as_unread c) (unread_count c) (last_read_inbox_message_id c)
    (last_message c) ns.

Definition set_local (l : LocalFile) (m : Msg) : Msg :=
  mkMsg (msg_id m) (msg_chat_id m) (sender_user_id m)
    (mkContent (content_type (content m)) (is_text (content m))
       (text_content (content m)) (file_id (content m)) (size (content m)) l).

Definition set_chats (l : list Chat) (m : Model) : Model :=
  mkModel l (current_chat m) (msgs m) (current_msgs m) (downloads m) (me_id m).

Definition set_current_chat (i : nat) (m : Model) : Model :=
  mkModel (chats m) i (msgs m) (current_msgs m) (downloads m) (me_id m).

Definition set_msgs (s : gmap Z (list Msg)) (m : Model) : Model :=
  mkModel (chats m) (current_chat m) s (current_msgs m) (downloads m) (me_id m).

Definition set_downloads (d : gmap Z (Z * Z)) (m : Model) : Model :=
  mkModel (chats m) (current_chat m) (msgs m) (current_msgs m) d (me_id m).

(** Inbound events, one constructor per key of [Controller.handlers]; the
    arguments are the fields the handler reads from the update. *)
Inductive Update :=
| UpdateChatDraftMessage (chat : Z) (order : Z)
| UpdateChatIsMarkedAsUnread (chat : Z) (marked : bool)
| UpdateChatIsPinned (chat : Z) (pinned : bool) (order : Z)
| UpdateChatLastMessage (chat : Z) (message : Msg) (order : Z)
| UpdateChatNotificationSettings (chat : Z) (settings : NotificationSettings)
| UpdateChatOrder (chat : Z) (order : Z)
| UpdateChatReadInbox (chat : Z) (last_read : Z) (unread : Z)
| UpdateChatTitle (chat : Z) (title : string)
| UpdateFile (file : Z) (file_local : LocalFile)
| UpdateMessageContent (chat : Z) (message_id : Z) (new_content : Content)
| UpdateMessageSendSucceeded (message : Msg) (old_message_id : Z)
| UpdateNewMessage (message : Msg).

(** ** Observable effects *)

Inductive LogLevel := DEBUG | INFO | WARNING | ERROR.

Inductive MediaKind := Doc | Photo | Audio.

(** [chat_size], the share of the screen given to the chat pane. *)
Inductive ChatSize := Half | Fifth.

Inductive Event :=
(* the Render Gate, [self.lock] *)
| LockAcquire
| LockRelease
(* the View *)
| DrawChats (selected : Z) (page : list Chat)
| DrawMsgs (current_msg_idx : Z) (page : list Msg) (threshold : Z)
| DrawStatus (text : option string)
| CursesEndwin
| StdscrRefresh
| StdscrErase
| StdscrNoutrefresh
| ResizePanes (ratio : ChatSize)
| SuspendCall (cmd : string)
| SuspendOpenFile (path : string)
| SuspendBreakpoint
(* the Telegram backend *)
| TgDownloadFile (file : Z)
| TgSendFile (kind : MediaKind) (path : string) (chat : option Z)
| TgSendVideo (path : string) (chat : option Z) (width height duration : Z)
| TgSendVoice (path : string) (chat : option Z) (duration : Z) (waveform : string)
| TgToggleChatIsMarkedAsUnread (chat : Z) (toggle : bool)
| TgToggleChatIsPinned (chat : Z) (toggle : bool)
| TgViewMessages (chat : Z) (ids : list Z)
| TgSetChatNotificationSettings (chat : Z) (settings : NotificationSettings)
(* Model methods that call the backend themselves *)
| ModelEditMessage (text : string)
| ModelSendMessage (text : string)
(* the operating system *)
| Notify (text : string) (title : string)
| Log (level : LogLevel) (fmt : string).

Definition is_draw (e : Event) : bool :=
  match e with
  | DrawChats _ _ | DrawMsgs _ _ _ | DrawStatus _ => true
  | _ => false
  end.

Definition is_backend_call (e : Event) : bool :=
  match e with
  | TgDownloadFile _ | TgSendFile _ _ _ | TgSendVideo _ _ _ _ _
  | TgSendVoice _ _ _ _
  | TgToggleChatIsMarkedAsUnread _ _ | TgToggleChatIsPinned _ _
  | TgViewMessages _ _ | TgSetChatNotificationSettings _ _
  | ModelEditMessage _ | ModelSendMessage _ => true
  | _ => false
  end.

(** ** The effect monad: shared state, a trace, and exceptions *)

Record World := mkWorld {
  model : Model;
  chat_size : ChatSize;              (* Controller.chat_size *)
  trace : list Event
}.

Inductive Exn := KeyError | IndexError.

Inductive Result (A : Type) :=
| Ok (a : A)
| Raise (e : Exn).
Arguments Ok {A} a.
Arguments Raise {A} e.

Definition M (A : Type) : Type := World -> Result A * World.

Definition ret {A} (a : A) : M A := fun w => (Ok a, w).

Definition bind {A B} (c : M A) (k : A -> M B) : M B :=
  fun w =>
    match c w with
    | (Ok a, w') => k a w'
    | (Raise e, w') => (Raise e, w')
    end.

Definition raise {A} (e : Exn) : M A := fun w => (Raise e, w).

Declare Scope ctl_scope.
Delimit Scope ctl_scope with ctl.
Notation "x <- c ;; k" := (bind c (fun x => k))
  (at level 100, c at next level, right associativity) : ctl_scope.
Notation "c ;; k" := (bind c (fun _ => k))
  (at level 100, right associativity) : ctl_scope.
Local Open Scope ctl_scope.

Definition get_model : M Model := fun w => (Ok (model w), w).

Definition modify_model (f : Model -> Model) : M unit :=
  fun w => (Ok tt, mkWorld (f (model w)) (chat_size w) (trace w)).

Definition get_chat_size : M ChatSize := fun w => (Ok (chat_size w), w).

Definition set_chat_size (r : ChatSize) : M unit :=
  fun w => (Ok tt, mkWorld (model w) r (trace w)).

Definition emit (e : Event) : M unit :=
  fun w => (Ok tt, mkWorld (model w) (chat_size w) (trace w ++ [e])).

(** [with self.lock: body]: the lock is released on every exit, normal or
    exceptional. *)
Definition with_lock {A} (body : M A) : M A :=
  fun w =>
    match emit LockAcquire w with
    | (_, w1) =>
        match body w1 with
        | (r, w2) => (r, snd (emit LockRelease w2))
        end
    end.

(** Modelled from the spec: the decorator [tg.utils.handle_exception] (not
    under src/): a failing handler is "logged and swallowed", and what it did
    before failing stays done. *)
Definition handle_exception (body : M unit) : M unit :=
  fun w =>
    match body w with
    | (Ok tt, w') => (Ok tt, w')
    | (Raise _, w') => emit (Log ERROR "Error happened in handler") w'
    end.

Definition exec {A} (c : M A) (w : World) : World := snd (c w).

(** The events a computation adds to an initially empty trace. *)
Definition events {A} (c : M A) (m : Model) : list Event :=
  trace (exec c (mkWorld m Half [])).

Definition final {A} (c : M A) (m : Model) : Model :=
  model (exec c (mkWorld m Half [])).

(** ** Collaborators

    Everything the Controller imports and that is not in this file of the
    repository: [tg.config], the queries and mutators of [tg.models.Model],
    the probes of [tg.utils] and [os.path].  They are an interface; every
    theorem below that does not say otherwise holds for all implementations.
    A query reads the Model and leaves it as it is; a mutator of
    [model.chats] or [model.msgs] changes that component only; navigation
    may change the whole Model. *)

Class Collaborators := {
  (* tg.config *)
  max_download_size : Z;
  editor : string;
  long_msg_cmd : string -> string;
  record_cmd : string -> string;
  (* view.chats.h, view.msgs.h *)
  chats_h : Z;
  msgs_h : Z;
  (* queries of the Model *)
  get_chats : Model -> nat -> Z -> Z -> list Chat;
  get_current_chat_msg_idx : Model -> option Z;
  fetch_msgs : Model -> Z -> Z -> Z -> list Msg;
  current_msg : Model -> Msg;
  get_user : Model -> Z -> User;
  (* mutators of model.chats and model.msgs *)
  update_chat : Z -> list ChatField -> list Chat -> list Chat;
  add_message : Z -> Msg -> gmap Z (list Msg) -> gmap Z (list Msg);
  remove_message : Z -> Z -> gmap Z (list Msg) -> gmap Z (list Msg);
  msgs_update_msg_content :
    Z -> Z -> Content -> gmap Z (list Msg) -> gmap Z (list Msg);
  (* navigation of the Model: the flag says whether the cursor moved *)
  next_chat : option Z -> Model -> bool * Model;   (* None: default step *)
  prev_chat : option Z -> Model -> bool * Model;
  first_chat : Model -> bool * Model;
  next_msg : Z -> Model -> bool * Model;
  prev_msg : Z -> Model -> bool * Model;
  jump_bottom : Model -> bool * Model;
  delete_msg : Model -> bool * Model;
  (* os.path.isfile and the probes of tg.utils *)
  isfile : string -> bool;
  is_yes : option string -> bool;
  get_duration : string -> Z;
  get_waveform : string -> string;
  get_video_resolution : string -> Z * Z
}.

(** Modelled from the spec: [model.chats.id_by_index] (tg.models is not under
    src/), an [Optional[int]] that is [None] when the index is not "within the
    live list length". *)
Definition id_by_index (l : list Chat) (i : nat) : option Z :=
  chat_id <$> l !! i.

(** Modelled from the spec: [model.is_me], "sender is the local user". *)
Definition is_me (m : Model) (user_id : Z) : bool :=
  bool_decide (me_id m = user_id).

(** Python truthiness of the values the Controller tests with [if x:]. *)
Definition truthy_Z (z : Z) : bool := negb (Z.eqb z 0).

Definition truthy_str (s : string) : bool :=
  match s with
  | EmptyString => false
  | _ => true
  end.

Definition MSGS_LEFT_SCROLL_THRESHOLD : Z := 2.

(** What the terminal and the external programs answer while one key is
    being handled. *)
Record Answers := mkAnswers {
  input : option string;     (* view.status.get_input() *)
  tmp_name : string;         (* NamedTemporaryFile(...).name *)
  edited : string;           (* f.read().strip() once the editor is closed *)
  voice_path : string        (* "/tmp/voice-{now}.oga" *)
}.

Section Controller.
Context `{C : Collaborators}.

(** *** Drawing *)

Definition update_status (level msg : string) : M unit :=
  with_lock (emit (DrawStatus (Some (level ++ ": " ++ msg)))).

Definition present_error (msg : string) : M unit := update_status "Error" msg.

Definition present_info (msg : string) : M unit := update_status "Info" msg.

Definition refresh_msgs : M unit :=
  m <- get_model ;;
  match get_current_chat_msg_idx m with
  | None => ret tt
  | Some current_msg_idx =>
      let page :=
        fetch_msgs m current_msg_idx msgs_h MSGS_LEFT_SCROLL_THRESHOLD in
      emit (DrawMsgs current_msg_idx page MSGS_LEFT_SCROLL_THRESHOLD)
  end.

Definition render : M unit :=
  with_lock (
    m <- get_model ;;
    let page_size := chats_h in
    let page :=
      get_chats m (current_chat m) page_size MSGS_LEFT_SCROLL_THRESHOLD in
    let selected_chat :=
      Z.min (Z.of_nat (current_chat m))
            (page_size - MSGS_LEFT_SCROLL_THRESHOLD) in
    emit (DrawChats selected_chat page) ;;
    refresh_msgs ;;
    emit (DrawStatus None)).

(** The three [resize(rows, cols, ...)] calls of the panes are one event. *)
Definition resize : M unit :=
  emit StdscrErase ;;
  emit StdscrNoutrefresh ;;
  ratio <- get_chat_size ;;
  emit (ResizePanes ratio) ;;
  render.

Definition resize_handler : M unit :=
  emit CursesEndwin ;;
  emit StdscrRefresh ;;
  resize.

(** *** Downloads *)

Definition download (file chat msg : Z) : M unit :=
  emit (Log INFO "Downloading file: file_id=%s") ;;
  modify_model (fun m => set_downloads (<[file := (chat, msg)]> (downloads m)) m) ;;
  emit (TgDownloadFile file) ;;
  emit (Log INFO "Downloaded: file_id=%s").

Definition download_current_file : M unit :=
  m <- get_model ;;
  let msg := current_msg m in
  emit (Log DEBUG "Downloading msg: %s") ;;
  match file_id (content msg) with
  | Some f =>
      if truthy_Z f then download f (msg_chat_id msg) (msg_id msg) else ret tt
  | None => ret tt
  end.

(** *** Actions of message-list mode *)

Definition send_file (a : Answers) (kind : MediaKind) : M unit :=
  match input a with
  | Some file_path =>
      if truthy_str file_path && isfile file_path then
        m <- get_model ;;
        let chat := id_by_index (chats m) (current_chat m) in
        emit (TgSendFile kind file_path chat) ;;
        present_info "File sent"
      else ret tt
  | None => ret tt
  end.

Definition send_video (a : Answers) : M unit :=
  match input a with
  | Some file_path =>
      if truthy_str file_path && isfile file_path then
        m <- get_model ;;
        let chat := id_by_index (chats m) (current_chat m) in
        let '(width, height) := get_video_resolution file_path in
        let duration := get_duration file_path in
        emit (TgSendVideo file_path chat width height duration)
      else ret tt
  | None => ret tt
  end.

Definition open_current_msg (a : Answers) : M unit :=
  m <- get_model ;;
  let msg := current_msg m in
  emit (Log INFO "Open msg: %s") ;;
  if is_text (content msg) then emit (SuspendOpenFile (tmp_name a))
  else
    let path := local_path (local (content msg)) in
    if truthy_str path then
      emit (Log INFO "Opening file: %s") ;;
      emit (SuspendOpenFile path)
    else ret tt.

Definition edit_msg (a : Answers) : M unit :=
  m <- get_model ;;
  let msg := current_msg m in
  emit (Log INFO "Editing msg: %s") ;;
  if negb (is_me m (sender_user_id msg)) then
    present_error "You can edit only your messages!"
  else if negb (is_text (content msg)) then
    present_error "You can edit text messages only!"
  else
    emit (SuspendCall (editor ++ " " ++ tmp_name a)) ;;
    if truthy_str (edited a) then
      emit (ModelEditMessage (edited a)) ;;
      present_info "Message edited"
    else ret tt.

Definition write_long_msg (a : Answers) : M unit :=
  emit (SuspendCall (long_msg_cmd (tmp_name a))) ;;
  if truthy_str (edited a) then
    emit (ModelSendMessage (edited a)) ;;
    present_info "Message sent"
  else ret tt.

Definition send_voice (a : Answers) : M unit :=
  let file_path := voice_path a in
  emit (SuspendCall (record_cmd file_path)) ;;
  let resp := input a in
  if is_yes resp && isfile file_path then
    m <- get_model ;;
    let chat := id_by_index (chats m) (current_chat m) in
    let duration := get_duration file_path in
    let waveform := get_waveform file_path in
    emit (TgSendVoice file_path chat duration waveform) ;;
    present_info ("Sent voice msg: " ++ file_path)
  else ret tt.

(** *** The two input loops, one key at a time *)

Definition key_in (keys : string) (l : list string) : bool :=
  existsb (String.eqb keys) l.

(** [if self.model.op(...): redraw()] *)
Definition navigate (op : Model -> bool * Model) (redraw : M unit) : M unit :=
  m <- get_model ;;
  let '(moved, m') := op m in
  modify_model (fun _ => m') ;;
  if moved then redraw else ret tt.

Inductive Signal := QUIT | BACK.

(** One iteration of the [while True] of [handle_msgs]; [None] means the
    loop goes on. *)
Definition handle_msgs_key (repeat_factor : Z) (keys : string) (a : Answers)
  : M (option Signal) :=
  emit (Log INFO "Pressed keys: %s") ;;
  if key_in keys ["q"] then ret (Some QUIT)
  else if key_in keys ["]"] then navigate (next_chat None) render ;; ret None
  else if key_in keys ["["] then navigate (prev_chat None) render ;; ret None
  else if key_in keys ["J"] then
    navigate (next_msg 10) refresh_msgs ;; ret None
  else if key_in keys ["K"] then
    navigate (prev_msg 10) refresh_msgs ;; ret None
  else if key_in keys ["j"; "^N"] then
    navigate (next_msg repeat_factor) refresh_msgs ;; ret None
  else if key_in keys ["k"; "^P"] then
    navigate (prev_msg repeat_factor) refresh_msgs ;; ret None
  else if key_in keys ["G"] then navigate jump_bottom refresh_msgs ;; ret None
  else if key_in keys ["dd"] then
    navigate delete_msg (refresh_msgs ;; present_info "Message deleted") ;;
    ret None
  else if key_in keys ["D"] then
    download_current_file ;;
    present_info "File downloaded" ;;
    ret None
  else if key_in keys ["l"] then open_current_msg a ;; ret None
  else if key_in keys ["sd"] then send_file a Doc ;; ret None
  else if key_in keys ["sp"] then send_file a Photo ;; ret None
  else if key_in keys ["sa"] then send_file a Audio ;; ret None
  else if key_in keys ["sv"] then send_video a ;; ret None
  else if key_in keys ["v"] then send_voice a ;; ret None
  else if key_in keys ["/"] then ret None
  else if key_in keys ["gg"] then ret None
  else if key_in keys ["e"] then edit_msg a ;; ret None
  else if key_in keys ["r"] then ret None
  else if key_in keys ["i"; "a"] then
    match input a with
    | Some msg =>
        if truthy_str msg then
          emit (ModelSendMessage msg) ;; present_info "Message sent" ;; ret None
        else present_info "Message wasn't sent" ;; ret None
    | None => present_info "Message wasn't sent" ;; ret None
    end
  else if key_in keys ["I"; "A"] then write_long_msg a ;; ret None
  else if key_in keys ["h"; "^D"] then ret (Some BACK)
  else if key_in keys ["bp"] then emit SuspendBreakpoint ;; ret None
  else ret None.

(** [self.model.chats.chats[self.model.current_chat]] *)
Definition selected_chat : M Chat :=
  m <- get_model ;;
  match chats m !! current_chat m with
  | Some chat => ret chat
  | None => raise IndexError
  end.

(** The "m" key.  [notification_settings] is the dictionary held by the
    chat in the Store, so the assignment to its "mute_for" changes the
    Store's chat too. *)
Definition toggle_mute : M unit :=
  chat <- selected_chat ;;
  let notification_settings :=
    if truthy_Z (mute_for (notification_settings chat))
    then mkNotificationSettings 0
    else mkNotificationSettings 2147483647 in
  modify_model (fun m =>
    set_chats (<[current_chat m :=
                 set_notification_settings notification_settings chat]>
               (chats m)) m) ;;
  emit (TgSetChatNotificationSettings (chat_id chat) notification_settings).

Inductive Mode := ChatList | MsgList | Stopped.

(** One iteration of the [while True] of [handle_chats].  The nested call
    of [handle_msgs] is the move to [MsgList]; its first two statements
    run here. *)
Definition handle_chats_key (repeat_factor : Z) (keys : string) : M Mode :=
  emit (Log INFO "Pressed keys: %s") ;;
  if key_in keys ["q"] then ret Stopped
  else if key_in keys ["l"; "^J"] then
    set_chat_size Fifth ;; resize ;; ret MsgList
  else if key_in keys ["j"; "^N"] then
    navigate (next_chat (Some repeat_factor)) render ;; ret ChatList
  else if key_in keys ["k"; "^P"] then
    navigate (prev_chat (Some repeat_factor)) render ;; ret ChatList
  else if key_in keys ["J"] then
    navigate (next_chat (Some 10)) render ;; ret ChatList
  else if key_in keys ["K"] then
    navigate (prev_chat (Some 10)) render ;; ret ChatList
  else if key_in keys ["gg"] then navigate first_chat render ;; ret ChatList
  else if key_in keys ["bp"] then emit SuspendBreakpoint ;; ret ChatList
  else if key_in keys ["u"] then
    chat <- selected_chat ;;
    emit (TgToggleChatIsMarkedAsUnread (chat_id chat)
            (negb (is_marked_as_unread chat))) ;;
    ret ChatList
  else if key_in keys ["p"] then
    chat <- selected_chat ;;
    emit (TgToggleChatIsPinned (chat_id chat) (negb (is_pinned chat))) ;;
    ret ChatList
  else if key_in keys ["r"] then
    chat <- selected_chat ;;
    emit (TgViewMessages (chat_id chat) [msg_id (last_message chat)]) ;;
    ret ChatList
  else if key_in keys ["m"] then toggle_mute ;; ret ChatList
  else ret ChatList.

(** A key press with what the terminal answers while it is handled. *)
Record KeyPress := mkKeyPress {
  repeat_factor : Z;
  keys : string;
  answers : Answers
}.

Definition step (mode : Mode) (k : KeyPress) : M Mode :=
  match mode with
  | ChatList => handle_chats_key (repeat_factor k) (keys k)
  | MsgList =>
      rc <- handle_msgs_key (repeat_factor k) (keys k) (answers k) ;;
      match rc with
      | Some QUIT => ret Stopped
      | Some BACK => set_chat_size Half ;; resize ;; ret ChatList
      | None => ret MsgList
      end
  | Stopped => ret Stopped
  end.

Fixpoint loop (mode : Mode) (presses : list KeyPress) : M Mode :=
  match presses with
  | [] => ret mode
  | k :: rest => mode' <- step mode k ;; loop mode' rest
  end.

(** [handle_chats] from its first statement, on the keys typed so far. *)
Definition handle_chats (presses : list KeyPress) : M Mode :=
  set_chat_size Half ;; resize ;; loop ChatList presses.

Definition run (presses : list KeyPress) : M unit :=
  fun w =>
    match handle_chats presses w with
    | (Ok _, w') => (Ok tt, w')
    | (Raise _, w') => emit (Log ERROR "Error happened in main loop") w'
    end.

(** *** Update handlers *)

Definition current_chat_id : M (option Z) :=
  m <- get_model ;;
  ret (id_by_index (chats m) (current_chat m)).

Definition update_msg_content (chat message_id : Z) (new_content : Content)
  : M unit :=
  handle_exception (
    modify_model (fun m =>
      set_msgs (msgs_update_msg_content chat message_id new_content (msgs m)) m) ;;
    current <- current_chat_id ;;
    if bool_decide (current = Some chat) then refresh_msgs else ret tt).

(** The [for chat in chats: if chat_id == chat["id"]: break] of
    [_notify_for_message]: what the variable [chat], [None] before the
    loop, holds after it. *)
Fixpoint chat_after_scan (chat : option Chat) (id : Z) (l : list Chat)
  : option Chat :=
  match l with
  | [] => chat
  | c :: rest =>
      if bool_decide (id = chat_id c) then Some c
      else chat_after_scan (Some c) id rest
  end.

Definition _notify_for_message (chat : Z) (msg : Msg) : M unit :=
  m <- get_model ;;
  let found := chat_after_scan None chat (chats m) in
  let muted :=
    match found with
    | Some c => truthy_Z (mute_for (notification_settings c))
    | None => false
    end in
  if muted then ret tt
  else if is_me m (sender_user_id msg) then ret tt
  else
    let user := get_user m (sender_user_id msg) in
    let name := first_name user ++ " " ++ last_name user in
    let text :=
      if is_text (content msg) then text_content (content msg)
      else content_type (content msg) in
    emit (Notify text name).

Definition update_new_msg (msg : Msg) : M unit :=
  handle_exception (
    modify_model (fun m =>
      set_msgs (add_message (msg_chat_id msg) msg (msgs m)) m) ;;
    current <- current_chat_id ;;
    (if bool_decide (current = Some (msg_chat_id msg))
     then refresh_msgs else ret tt) ;;
    (match file_id (content msg) with
     | Some f =>
         if truthy_Z f && (size (content msg) <=? max_download_size)%Z
         then download f (msg_chat_id msg) (msg_id msg)
         else ret tt
     | None => ret tt
     end) ;;
    _notify_for_message (msg_chat_id msg) msg).

(** The [for i, chat in enumerate(chats)] of [_refresh_current_chat]. *)
Fixpoint index_of_chat (id : Z) (i : nat) (l : list Chat) : option nat :=
  match l with
  | [] => None
  | c :: rest =>
      if bool_decide (chat_id c = id) then Some i
      else index_of_chat id (S i) rest
  end.

Definition _refresh_current_chat (current : option Z) : M unit :=
  match current with
  | None => ret tt
  | Some id =>
      m <- get_model ;;
      (match index_of_chat id 0 (chats m) with
       | Some i => modify_model (set_current_chat i)
       | None => ret tt
       end) ;;
      render
  end.

Definition update_chat_order (chat order : Z) : M unit :=
  handle_exception (
    emit (Log INFO "Proccessing updateChatOrder") ;;
    current <- current_chat_id ;;
    modify_model (fun m =>
      set_chats (update_chat chat [F_order order] (chats m)) m) ;;
    _refresh_current_chat current).

Definition update_chat_title (chat : Z) (title : string) : M unit :=
  handle_exception (
    emit (Log INFO "Proccessing updateChatTitle") ;;
    current <- current_chat_id ;;
    modify_model (fun m =>
      set_chats (update_chat chat [F_title title] (chats m)) m) ;;
    _refresh_current_chat current).

Definition update_chat_marked_as_unread (chat : Z) (marked : bool) : M unit :=
  handle_exception (
    emit (Log INFO "Proccessing updateChatIsMarkedAsUnread") ;;
    current <- current_chat_id ;;
    modify_model (fun m =>
      set_chats (update_chat chat [F_is_marked_as_unread marked] (chats m)) m) ;;
    _refresh_current_chat current).

Definition update_chat_is_pinned (chat : Z) (pinned : bool) (order : Z)
  : M unit :=
  handle_exception (
    emit (Log INFO "Proccessing updateChatIsPinned") ;;
    current <- current_chat_id ;;
    modify_model (fun m =>
      set_chats
        (update_chat chat [F_is_pinned pinned; F_order order] (chats m)) m) ;;
    _refresh_current_chat current).

Definition update_chat_read_inbox (chat last_read unread : Z) : M unit :=
  handle_exception (
    emit (Log INFO "Proccessing updateChatReadInbox") ;;
    current <- current_chat_id ;;
    modify_model (fun m =>
      set_chats
        (update_chat chat
           [F_last_read_inbox_message_id last_read; F_unread_count unread]
           (chats m)) m) ;;
    _refresh_current_chat current).

Definition update_chat_draft_msg (chat order : Z) : M unit :=
  handle_exception (
    emit (Log INFO "Proccessing updateChatDraftMessage") ;;
    current <- current_chat_id ;;
    modify_model (fun m =>
      set_chats (update_chat chat [F_order order] (chats m)) m) ;;
    _refresh_current_chat current).

Definition update_chat_last_msg (chat : Z) (message : Msg) (order : Z)
  : M unit :=
  handle_exception (
    emit (Log INFO "Proccessing updateChatLastMessage") ;;
    current <- current_chat_id ;;
    modify_model (fun m =>
      set_chats
        (update_chat chat [F_last_message message; F_order order] (chats m))
        m) ;;
    _refresh_current_chat current).

Definition update_chat_notification_settings (chat : Z)
    (settings : NotificationSettings) : M unit :=
  handle_exception (
    emit (Log INFO "Proccessing update_chat_notification_settings") ;;
    modify_model (fun m =>
      set_chats (update_chat chat [F_notification_settings settings] (chats m)) m) ;;
    render).

Definition update_msg_send_succeeded (message : Msg) (old_message_id : Z)
  : M unit :=
  handle_exception (
    let chat := msg_chat_id message in
    modify_model (fun m => set_msgs (add_message chat message (msgs m)) m) ;;
    modify_model (fun m =>
      set_msgs (remove_message chat old_message_id (msgs m)) m) ;;
    current <- current_chat_id ;;
    if bool_decide (current = Some chat) then refresh_msgs else ret tt).

(** The [for msg in msgs: if msg["id"] == msg_id] of [update_file]: the
    position and the message the loop stops at. *)
Fixpoint find_msg (id : Z) (i : nat) (l : list Msg) : option (nat * Msg) :=
  match l with
  | [] => None
  | msg :: rest =>
      if bool_decide (msg_id msg = id) then Some (i, msg)
      else find_msg id (S i) rest
  end.

(** Modelled from the spec: [MsgProxy.is_downloaded] (tg.msg is not under
    src/), the attached file is "fully local". *)
Definition is_downloaded (m : Msg) : bool :=
  is_downloading_completed (local (content m)).

(** [proxy.local = local] writes into the message held by the Store. *)
Definition update_file (file : Z) (file_local : LocalFile) : M unit :=
  handle_exception (
    emit (Log INFO "update_file: %s") ;;
    m <- get_model ;;
    match downloads m !! file with
    | None =>
        emit (Log WARNING "Can't find information about file with file_id=%s")
    | Some (chat, id) =>
        match msgs m !! chat with
        | None => raise KeyError
        | Some l =>
            match find_msg id 0 l with
            | None => ret tt
            | Some (i, msg) =>
                let proxy := set_local file_local msg in
                modify_model (fun m =>
                  set_msgs (<[chat := <[i := proxy]> l]> (msgs m)) m) ;;
                refresh_msgs ;;
                if is_downloaded proxy then
                  modify_model (fun m =>
                    set_downloads (delete file (downloads m)) m)
                else ret tt
            end
        end
    end).

(** The table [Controller.handlers]. *)
Definition dispatch (u : Update) : M unit :=
  match u with
  | UpdateChatDraftMessage chat order => update_chat_draft_msg chat order
  | UpdateChatIsMarkedAsUnread chat marked =>
      update_chat_marked_as_unread chat marked
  | UpdateChatIsPinned chat pinned order =>
      update_chat_is_pinned chat pinned order
  | UpdateChatLastMessage chat message order =>
      update_chat_last_msg chat message order
  | UpdateChatNotificationSettings chat settings =>
      update_chat_notification_settings chat settings
  | UpdateChatOrder chat order => update_chat_order chat order
  | UpdateChatReadInbox chat last_read unread =>
      update_chat_read_inbox chat last_read unread
  | UpdateChatTitle chat title => update_chat_title chat title
  | UpdateFile file file_local => update_file file file_local
  | UpdateMessageContent chat message_id new_content =>
      update_msg_content chat message_id new_content
  | UpdateMessageSendSucceeded message old_message_id =>
      update_msg_send_succeeded message old_message_id
  | UpdateNewMessage message => update_new_msg message
  end.
End Controller.

(** ** A reference Store

    [tg.models], [tg.config] and [tg.utils] are not under src/.  The
    definitions of this module give the interface above one implementation,
    so that the scenarios of the spec can be run; the general theorems do not
    depend on it. *)

Module Reference.

Definition apply_field (f : ChatField) (c : Chat) : Chat :=
  match f with
  | F_order v =>
      mkChat (chat_id c) (chat_title c) v (is_pinned c)
        (is_marked_as_unread c) (unread_count c)
        (last_read_inbox_message_id c) (last_message c)
        (notification_settings c)
  | F_title v =>
      mkChat (chat_id c) v (chat_order c) (is_pinned c)
        (is_marked_as_unread c) (unread_count c)
        (last_read_inbox_message_id c) (last_message c)
        (notification_settings c)
  | F_is_marked_as_unread v =>
      mkChat (chat_id c) (chat_title c) (chat_order c) (is_pinned c) v
        (unread_count c) (last_read_inbox_message_id c) (last_message c)
        (notification_settings c)
  | F_is_pinned v =>
      mkChat (chat_id c) (chat_title c) (chat_order c) v
        (is_marked_as_unread c) (unread_count c)
        (last_read_inbox_message_id c) (last_message c)
        (notification_settings c)
  | F_last_read_inbox_message_id v =>
      mkChat (chat_id c) (chat_title c) (chat_order c) (is_pinned c)
        (is_marked_as_unread c) (unread_count c) v (last_message c)
        (notification_settings c)
  | F_unread_count v =>
      mkChat (chat_id c) (chat_title c) (chat_order c) (is_pinned c)
        (is_marked_as_unread c) v (last_read_inbox_message_id c)
        (last_message c) (notification_settings c)
  | F_last_message v =>
      mkChat (chat_id c) (chat_title c) (chat_order c) (is_pinned c)
        (is_marked_as_unread c) (unread_count c)
        (last_read_inbox_message_id c) v (notification_settings c)
  | F_notification_settings v => set_notification_settings v c
  end.

Definition merge (fields : list ChatField) (c : Chat) : Chat :=
  fold_left (fun c f => apply_field f c) fields c.

(** [a] is displayed above [b]: pinned first, then larger order first. *)
Definition above (a b : Chat) : bool :=
  match is_pinned a, is_pinned b with
  | true, false => true
  | false, true => false
  | _, _ => (chat_order b <? chat_order a)%Z
  end.

Fixpoint place (c : Chat) (l : list Chat) : list Chat :=
  match l with
  | [] => [c]
  | d :: rest => if above d c then d :: place c rest else c :: d :: rest
  end.

Definition display_order (l : list Chat) : list Chat := foldr place [] l.

(** Modelled from the spec: [model.chats.update_chat] "merges a partial
    field set into the existing record"; the "display order is a derived
    sort over (is_pinned desc, order desc)"; an unknown chat id changes
    nothing. *)
Definition update_chat (chat : Z) (fields : list ChatField) (l : list Chat)
  : list Chat :=
  if existsb (fun c => bool_decide (chat_id c = chat)) l then
    display_order
      (map (fun c => if bool_decide (chat_id c = chat) then merge fields c
                     else c) l)
  else l.

Definition current_list (m : Model) : list Msg :=
  match id_by_index (chats m) (current_chat m) with
  | Some id => default [] (msgs m !! id)
  | None => []
  end.

Definition get_current_chat_msg_idx (m : Model) : option Z :=
  match id_by_index (chats m) (current_chat m) with
  | Some id => current_msgs m !! id
  | None => None
  end.

Definition no_content : Content :=
  mkContent "messageText" true EmptyString None 0
    (mkLocalFile false EmptyString).

Definition no_msg : Msg := mkMsg 0 0 0 no_content.

Definition current_msg (m : Model) : Msg :=
  match get_current_chat_msg_idx m with
  | Some i => default no_msg (current_list m !! Z.to_nat i)
  | None => no_msg
  end.

Definition set_content (c : Content) (m : Msg) : Msg :=
  mkMsg (msg_id m) (msg_chat_id m) (sender_user_id m) c.

(** The index of [[0, n - 1]] nearest to [target]: a cursor moved past an
    edge stops at the edge. *)
Definition clamp (target : Z) (n : nat) : Z :=
  Z.max 0 (Z.min target (Z.of_nat n - 1)).

(** Modelled from the spec: the selection "stays within [0, chat_count-1]"
    and a move from near an edge "clamps rather than wraps or overflows";
    the flag says whether the selection changed. *)
Definition move_chat (target : Z) (m : Model) : bool * Model :=
  let t := clamp target (length (chats m)) in
  if Nat.eqb (length (chats m)) 0 || Z.eqb t (Z.of_nat (current_chat m))
  then (false, m)
  else (true, set_current_chat (Z.to_nat t) m).

Definition set_cursor (i : Z) (m : Model) : bool * Model :=
  match id_by_index (chats m) (current_chat m) with
  | Some id =>
      let t := clamp i (length (current_list m)) in
      if Nat.eqb (length (current_list m)) 0
         || bool_decide (current_msgs m !! id = Some t)
      then (false, m)
      else (true,
            mkModel (chats m) (current_chat m) (msgs m)
              (<[id := t]> (current_msgs m)) (downloads m) (me_id m))
  | None => (false, m)
  end.

Definition cursor (m : Model) : Z := default 0 (get_current_chat_msg_idx m).

(** Modelled from the spec: "deleting the currently selected message when
    it is the last in the list moves the cursor to the new last message,
    never past the end". *)
Definition delete_msg (m : Model) : bool * Model :=
  match id_by_index (chats m) (current_chat m) with
  | Some id =>
      match current_list m !! Z.to_nat (cursor m) with
      | Some _ =>
          let rest := delete (Z.to_nat (cursor m)) (current_list m) in
          (true,
           mkModel (chats m) (current_chat m) (<[id := rest]> (msgs m))
             (<[id := clamp (cursor m) (length rest)]> (current_msgs m))
             (downloads m) (me_id m))
      | None => (false, m)
      end
  | None => (false, m)
  end.

#[global] Instance store : Collaborators := {
  max_download_size := 10485760;
  editor := "vim";
  long_msg_cmd := fun file_path => "vim " ++ file_path;
  record_cmd := fun file_path => "ffmpeg -f avfoundation -i :0 " ++ file_path;
  chats_h := 20;
  msgs_h := 20;
  get_chats := fun m _ _ _ => chats m;
  get_current_chat_msg_idx := get_current_chat_msg_idx;
  fetch_msgs := fun m _ _ _ => current_list m;
  current_msg := current_msg;
  get_user := fun _ id =>
    if Z.eqb id 7 then mkUser "Ada" "Lovelace" else mkUser "Alan" "Turing";
  update_chat := update_chat;
  add_message := fun chat msg s =>
    <[chat := (default [] (s !! chat) ++ [msg])%list]> s;
  remove_message := fun chat id s =>
    alter (filter (fun x => msg_id x <> id)) chat s;
  msgs_update_msg_content := fun chat id c s =>
    alter (map (fun x => if bool_decide (msg_id x = id) then set_content c x
                         else x)) chat s;
  next_chat := fun n m => move_chat (Z.of_nat (current_chat m) + default 1 n) m;
  prev_chat := fun n m => move_chat (Z.of_nat (current_chat m) - default 1 n) m;
  first_chat := move_chat 0;
  next_msg := fun n m => set_cursor (cursor m + n) m;
  prev_msg := fun n m => set_cursor (cursor m - n) m;
  jump_bottom := set_cursor 0;
  delete_msg := delete_msg;
  isfile := fun path => String.eqb path "/home/me/cat.png";
  is_yes := fun resp =>
    match resp with
    | Some r => negb (String.eqb r "n")
    | None => true
    end;
  get_duration := fun _ => 3;
  get_waveform := fun _ => "AAAA";
  get_video_resolution := fun _ => (640, 480)
}.

(** *** Sample data *)

Definition text (id chat sender : Z) (body : string) : Msg :=
  mkMsg id chat sender
    (mkContent "messageText" true body None 0 (mkLocalFile false EmptyString)).

Definition photo (id chat sender file bytes : Z) : Msg :=
  mkMsg id chat sender
    (mkContent "messagePhoto" false EmptyString (Some file) bytes
       (mkLocalFile false EmptyString)).

Definition a_chat (id order mute : Z) : Chat :=
  mkChat id "chat" order false false 0 0 (text 1 id 7 "hi")
    (mkNotificationSettings mute).

(** Two chats, the second selected, the local user is 1. *)
Definition two_chats : Model :=
  mkModel [a_chat 2 10 0; a_chat 1 5 0] 1
    {[ 1 := [text 11 1 7 "hello"]; 2 := [photo 21 2 7 70 2048] ]}
    {[ 1 := 0; 2 := 0 ]} ∅ 1.

(** No chat loaded yet. *)
Definition no_chats : Model := mkModel [] 0 ∅ ∅ ∅ 1.

(** One chat, muted for an hour. *)
Definition muted_chat : Model := mkModel [a_chat 2 10 3600] 0 ∅ ∅ ∅ 1.

(** A download of file 70 is pending for message 21 of chat 2, and the
    message has been deleted meanwhile. *)
Definition msg_deleted : Model :=
  mkModel [a_chat 2 10 0; a_chat 1 5 0] 0
    {[ 1 := [text 11 1 7 "hello"]; 2 := [] ]}
    {[ 1 := 0; 2 := 0 ]} {[ 70 := (2, 21) ]} 1.

Definition pending : Model :=
  mkModel [a_chat 2 10 0; a_chat 1 5 0] 0
    {[ 1 := [text 11 1 7 "hello"]; 2 := [photo 21 2 7 70 2048] ]}
    {[ 1 := 0; 2 := 0 ]} {[ 70 := (2, 21) ]} 1.

Definition typed (s : string) : Answers :=
  mkAnswers (Some s) "/tmp/tmpab12.txt" EmptyString "/tmp/voice.oga".

End Reference.


(** ** The Render Gate under two threads

    The main thread (keys) and the update thread (handlers) run the events of
    their traces one after the other, in any interleaving.  A draw call
    occupies the terminal from its begin to its end.  [threading.Lock] is not
    reentrant: [Acquire] waits while the lock is taken, whoever holds it. *)

Module Gate.

Inductive Thread := MainThread | UpdateThread.

#[export] Instance Thread_eq_dec : EqDecision Thread.
Proof. solve_decision. Defined.

Inductive Action := Acquire | Release | DrawBegin | DrawEnd | Skip.

Definition actions_of (e : Event) : list Action :=
  match e with
  | LockAcquire => [Acquire]
  | LockRelease => [Release]
  | _ => if is_draw e then [DrawBegin; DrawEnd] else [Skip]
  end.

Definition program (evs : list Event) : list Action := flat_map actions_of evs.

Record ThreadState := mkThreadState {
  todo : list Action;
  in_draw : bool
}.

Record State := mkState {
  lock : option Thread;
  main_thread : ThreadState;
  update_thread : ThreadState
}.

Definition thread (t : Thread) (st : State) : ThreadState :=
  match t with
  | MainThread => main_thread st
  | UpdateThread => update_thread st
  end.

Definition put (t : Thread) (l : option Thread) (ts : ThreadState) (st : State)
  : State :=
  match t with
  | MainThread => mkState l ts (update_thread st)
  | UpdateThread => mkState l (main_thread st) ts
  end.

(** Thread [t] runs its next action; [None] when it has finished, waits for
    the lock, or releases a lock it does not hold. *)
Definition step (t : Thread) (st : State) : option State :=
  match todo (thread t st) with
  | [] => None
  | Acquire :: rest =>
      match lock st with
      | None => Some (put t (Some t) (mkThreadState rest (in_draw (thread t st))) st)
      | Some _ => None
      end
  | Release :: rest =>
      if bool_decide (lock st = Some t)
      then Some (put t None (mkThreadState rest (in_draw (thread t st))) st)
      else None
  | DrawBegin :: rest => Some (put t (lock st) (mkThreadState rest true) st)
  | DrawEnd :: rest => Some (put t (lock st) (mkThreadState rest false) st)
  | Skip :: rest =>
      Some (put t (lock st) (mkThreadState rest (in_draw (thread t st))) st)
  end.

Fixpoint run (schedule : list Thread) (st : State) : option State :=
  match schedule with
  | [] => Some st
  | t :: rest =>
      match step t st with
      | Some st' => run rest st'
      | None => None
      end
  end.

Definition init (main_prog update_prog : list Action) : State :=
  mkState None (mkThreadState main_prog false) (mkThreadState update_prog false).

(** Both threads are inside a draw call. *)
Definition overlap (st : State) : bool :=
  in_draw (main_thread st) && in_draw (update_thread st).

(** The lock discipline of one thread: it draws only while it holds the
    lock, and takes and gives back the lock in turn. *)
Fixpoint gated (held drawing : bool) (p : list Action) : bool :=
  match p with
  | [] => true
  | Acquire :: rest => negb held && negb drawing && gated true false rest
  | Release :: rest => held && negb drawing && gated false false rest
  | DrawBegin :: rest => held && negb drawing && gated held true rest
  | DrawEnd :: rest => drawing && gated held false rest
  | Skip :: rest => gated held drawing rest
  end.

Definition holds (t : Thread) (st : State) : bool :=
  bool_decide (lock st = Some t).

Definition disciplined (t : Thread) (st : State) : Prop :=
  gated (holds t st) (in_draw (thread t st)) (todo (thread t st)) = true
  /\ (in_draw (thread t st) = true -> lock st = Some t).

End Gate.


(** ** Vocabulary of the properties *)

Definition outcome {A} (c : M A) (m : Model) : Result A :=
  fst (c (mkWorld m Half [])).

(** What was written on the status line, in order; [None] is the bare
    [status.draw()] of [render]. *)
Fixpoint status_texts (evs : list Event) : list (option string) :=
  match evs with
  | [] => []
  | DrawStatus text :: rest => text :: status_texts rest
  | _ :: rest => status_texts rest
  end.

Fixpoint download_calls (evs : list Event) : list Z :=
  match evs with
  | [] => []
  | TgDownloadFile f :: rest => f :: download_calls rest
  | _ :: rest => download_calls rest
  end.

(** The (chat id, mute_for) of every set-notification-settings call. *)
Fixpoint mute_requests (evs : list Event) : list (Z * Z) :=
  match evs with
  | [] => []
  | TgSetChatNotificationSettings chat ns :: rest =>
      (chat, mute_for ns) :: mute_requests rest
  | _ :: rest => mute_requests rest
  end.

(** The (title, body) of every desktop notification. *)
Fixpoint notifications (evs : list Event) : list (string * string) :=
  match evs with
  | [] => []
  | Notify text title :: rest => (title, text) :: notifications rest
  | _ :: rest => notifications rest
  end.

Definition draws (evs : list Event) : list Event := filter is_draw evs.

Definition backend_calls (evs : list Event) : list Event :=
  filter is_backend_call evs.

(** [if file_id:] holds for the message. *)
Definition carries_file (msg : Msg) : bool :=
  match file_id (content msg) with
  | Some f => truthy_Z f
  | None => false
  end.

(** The prompted path is empty or names no existing file. *)
Definition rejected_path `{C : Collaborators} (a : Answers) : bool :=
  match input a with
  | Some file_path => negb (truthy_str file_path && isfile file_path)
  | None => true
  end.

(** The chat and the fields merged by each of the seven chat-mutating
    events that re-resolve the selection. *)
Definition chat_mutation (u : Update) : option (Z * list ChatField) :=
  match u with
  | UpdateChatOrder chat order => Some (chat, [F_order order])
  | UpdateChatTitle chat title => Some (chat, [F_title title])
  | UpdateChatIsMarkedAsUnread chat marked =>
      Some (chat, [F_is_marked_as_unread marked])
  | UpdateChatIsPinned chat pinned order =>
      Some (chat, [F_is_pinned pinned; F_order order])
  | UpdateChatReadInbox chat last_read unread =>
      Some (chat, [F_last_read_inbox_message_id last_read;
                   F_unread_count unread])
  | UpdateChatDraftMessage chat order => Some (chat, [F_order order])
  | UpdateChatLastMessage chat message order =>
      Some (chat, [F_last_message message; F_order order])
  | _ => None
  end.

(** The first chat of the list with the given id. *)
Fixpoint lookup_chat (id : Z) (l : list Chat) : option Chat :=
  match l with
  | [] => None
  | c :: rest => if bool_decide (chat_id c = id) then Some c else lookup_chat id rest
  end.

Definition press (keys : string) : KeyPress :=
  mkKeyPress 1 keys (mkAnswers None EmptyString EmptyString EmptyString).

(** The request of one mute toggle: "forever" for an unmuted chat, 0 for a
    muted one. *)
Definition toggled (mute : Z) : Z :=
  if truthy_Z mute then 0 else 2147483647.

(** The body shared by the seven chat-mutating handlers, which differ in
    their log line and in the fields they merge. *)
Definition chat_handler `{C : Collaborators} (lg : string) (chat : Z)
    (fields : list ChatField) : M unit :=
  handle_exception (
    emit (Log INFO lg) ;;
    current <- current_chat_id ;;
    modify_model (fun m => set_chats (update_chat chat fields (chats m)) m) ;;
    _refresh_current_chat current).

(** What a chat handler leaves behind: the merged list, and the selection
    moved to the first chat that has the id read before the merge. *)
Definition reselect (current : option Z) (l : list Chat) (i : nat) : nat :=
  match current with
  | Some id => default i (index_of_chat id 0 l)
  | None => i
  end.


(** *** Vocabulary of the further properties *)

(** The chat a message-level update is about. *)
Definition message_chat (u : Update) : option Z :=
  match u with
  | UpdateMessageContent chat _ _ => Some chat
  | UpdateMessageSendSucceeded message _ => Some (msg_chat_id message)
  | UpdateNewMessage message => Some (msg_chat_id message)
  | _ => None
  end.

(** Chat-level updates: the seven that re-resolve the selection, and the
    notification settings. *)
Definition chat_level (u : Update) : bool :=
  match u with
  | UpdateChatNotificationSettings _ _ => true
  | _ => match chat_mutation u with
         | Some _ => true
         | None => false
         end
  end.

(** An event that is neither a lock operation nor a draw of the chat pane
    or of the status line. *)
Definition off_gate (e : Event) : bool :=
  match e with
  | LockAcquire | LockRelease | DrawChats _ _ | DrawStatus _ => false
  | _ => true
  end.

(** The lock is taken and given back in turn, and is free at the end. *)
Fixpoint lock_balanced (held : bool) (evs : list Event) : bool :=
  match evs with
  | [] => negb held
  | LockAcquire :: rest => negb held && lock_balanced true rest
  | LockRelease :: rest => held && lock_balanced false rest
  | _ :: rest => lock_balanced held rest
  end.

(** The pane share that goes with each mode of the input loop. *)
Definition mode_fits (mode : Mode) (s : ChatSize) : bool :=
  match mode, s with
  | ChatList, Half | MsgList, Fifth | Stopped, _ => true
  | _, _ => false
  end.

(** The keys that have a branch in [handle_chats] and in [handle_msgs]. *)
Definition chat_list_keys : list string :=
  ["q"; "l"; "^J"; "j"; "^N"; "k"; "^P"; "J"; "K"; "gg"; "bp"; "u"; "p"; "r";
   "m"].

Definition msg_list_keys : list string :=
  ["q"; "]"; "["; "J"; "K"; "j"; "^N"; "k"; "^P"; "G"; "dd"; "D"; "l"; "sd";
   "sp"; "sa"; "sv"; "v"; "/"; "gg"; "e"; "r"; "i"; "a"; "I"; "A"; "h"; "^D";
   "bp"].

(** What [present_info] and [present_error] add to the trace. *)
Definition status_events (level msg : string) : list Event :=
  [LockAcquire; DrawStatus (Some (level ++ ": " ++ msg)); LockRelease].

Module Samples.

(** Chat 1 is selected and its only message is a text of the local user. *)
Definition own_text : Model :=
  mkModel [Reference.a_chat 1 5 0] 0
    {[ 1 := [Reference.text 11 1 1 "draft"] ]} {[ 1 := 0 ]} ∅ 1.

Definition answered (typed_text edited_text : string) : Answers :=
  mkAnswers (Some typed_text) "/tmp/tmpab12.txt" edited_text "/tmp/voice.oga".

(** The selection index is past the end of the list. *)
Definition no_selection : Model :=
  mkModel [Reference.a_chat 2 10 0] 3 ∅ ∅ ∅ 1.

(** The selection is on row 19 of a chat pane of 20 rows. *)
Definition last_row : Model :=
  mkModel [Reference.a_chat 2 10 0] 19 ∅ ∅ ∅ 1.

(** A registered download whose chat has no message list. *)
Definition orphan_download : Model :=
  mkModel [Reference.a_chat 2 10 0] 0 ∅ ∅ {[ 70 := (2, 21) ]} 1.

End Samples.


(** ** Proofs *)

Ltac ctl :=
  unfold events, final, outcome, exec, handle_exception, with_lock, bind, ret,
    raise, emit, modify_model, get_model, get_chat_size, set_chat_size in *;
  simpl in *.

Section Downloads.
Context `{C : Collaborators}.

Lemma download_current_file_without_file (m : Model) :
  carries_file (current_msg m) = false ->
  events download_current_file m = [Log DEBUG "Downloading msg: %s"]
  /\ final download_current_file m = m.
Proof.
  unfold carries_file, download_current_file. intros H. ctl.
  destruct (file_id (content (current_msg m))) as [f|]; [|done].
  rewrite H. done.
Qed.

(** C10. In message-list mode the key "D" always ends by writing the info
    status "File downloaded"; when the current message carries no file, no
    download is started and the Model, registry included, is unchanged. *)
Theorem D_key_always_reports_downloaded (m : Model) (r : Z) (a : Answers) :
  outcome (handle_msgs_key r "D" a) m = Ok None
  /\ status_texts (events (handle_msgs_key r "D" a) m)
     = [Some "Info: File downloaded"]
  /\ (carries_file (current_msg m) = false ->
      events (handle_msgs_key r "D" a) m
      = [Log INFO "Pressed keys: %s"; Log DEBUG "Downloading msg: %s";
         LockAcquire; DrawStatus (Some "Info: File downloaded"); LockRelease]
      /\ download_calls (events (handle_msgs_key r "D" a) m) = []
      /\ final (handle_msgs_key r "D" a) m = m).
Proof.
  unfold handle_msgs_key, carries_file, download_current_file, download,
    present_info, update_status. ctl.
  destruct (file_id (content (current_msg m))) as [f|]; simpl;
    [destruct (truthy_Z f); simpl|];
    repeat split; try done; intros _; repeat split; try done;
    by destruct m.
Qed.

End Downloads.

Lemma D_key_on_a_text_message :
  carries_file (current_msg Reference.two_chats) = false
  /\ events (handle_msgs_key 1 "D" (Reference.typed "x")) Reference.two_chats
     = [Log INFO "Pressed keys: %s"; Log DEBUG "Downloading msg: %s";
        LockAcquire; DrawStatus (Some "Info: File downloaded"); LockRelease]
  /\ download_calls
       (events (handle_msgs_key 1 "D" (Reference.typed "x")) Reference.two_chats)
     = []
  /\ final (handle_msgs_key 1 "D" (Reference.typed "x")) Reference.two_chats
     = Reference.two_chats.
Proof.
  split; [reflexivity|].
  apply (D_key_always_reports_downloaded Reference.two_chats 1
           (Reference.typed "x")).
  reflexivity.
Defined.

Section Rejections.
Context `{C : Collaborators}.

(** C9 (as the code has it). When the prompted path is empty or names no
    existing file, sending media does nothing at all: no backend call, no
    change of the Model, and nothing on the status line either. *)
Theorem send_file_rejection_is_silent (m : Model) (a : Answers)
    (kind : MediaKind) :
  rejected_path a = true ->
  outcome (send_file a kind) m = Ok tt
  /\ events (send_file a kind) m = []
  /\ final (send_file a kind) m = m
  /\ events (send_video a) m = []
  /\ final (send_video a) m = m.
Proof.
  unfold rejected_path, send_file, send_video. intros H.
  destruct (input a) as [file_path|]; ctl.
  - apply negb_true_iff in H. rewrite H. simpl.
    repeat split; try done; by destruct m.
  - repeat split; try done; by destruct m.
Qed.

(** C5 (as the code has it). Editing a message of another sender makes no
    edit call, changes nothing, and draws the status line with
    "Error: You can edit only your messages!"; editing a non-text message
    makes no edit call either, and draws an error on the status line. *)
Theorem edit_msg_rejections (m : Model) (a : Answers) :
  (is_me m (sender_user_id (current_msg m)) = false ->
   events (edit_msg a) m
   = [Log INFO "Editing msg: %s"; LockAcquire;
      DrawStatus (Some "Error: You can edit only your messages!");
      LockRelease]
   /\ final (edit_msg a) m = m)
  /\ (is_text (content (current_msg m)) = false ->
      backend_calls (events (edit_msg a) m) = []
      /\ final (edit_msg a) m = m
      /\ status_texts (events (edit_msg a) m)
         = [Some (if is_me m (sender_user_id (current_msg m))
                  then "Error: You can edit text messages only!"
                  else "Error: You can edit only your messages!")]).
Proof.
  unfold edit_msg, present_error, update_status. split; intros H; ctl.
  - rewrite H. simpl. split; [done | by destruct m].
  - rewrite H.
    destruct (is_me m (sender_user_id (current_msg m))); simpl;
      (split; [done | split; [by destruct m | done]]).
Qed.

End Rejections.

Lemma send_file_rejection_on_a_missing_file :
  rejected_path (Reference.typed "/no/such/file") = true
  /\ outcome (send_file (Reference.typed "/no/such/file") Photo)
       Reference.two_chats = Ok tt
  /\ events (send_file (Reference.typed "/no/such/file") Photo)
       Reference.two_chats = []
  /\ final (send_file (Reference.typed "/no/such/file") Photo)
       Reference.two_chats = Reference.two_chats
  /\ events (send_video (Reference.typed "/no/such/file")) Reference.two_chats
     = []
  /\ final (send_video (Reference.typed "/no/such/file")) Reference.two_chats
     = Reference.two_chats.
Proof.
  split; [reflexivity|].
  apply (send_file_rejection_is_silent Reference.two_chats
           (Reference.typed "/no/such/file") Photo).
  reflexivity.
Defined.

(** C9 as stated fails: the path names no file, and the status line is not
    written. *)
Lemma send_file_rejection_not_surfaced :
  rejected_path (Reference.typed "/no/such/file") = true
  /\ status_texts
       (events (send_file (Reference.typed "/no/such/file") Photo)
          Reference.two_chats) = [].
Proof. split; reflexivity. Qed.

Lemma edit_msg_of_another_sender :
  (is_me Reference.pending
     (sender_user_id (current_msg Reference.pending)) = false
   /\ is_text (content (current_msg Reference.pending)) = false)
  /\ (events (edit_msg (Reference.typed "x")) Reference.pending
      = [Log INFO "Editing msg: %s"; LockAcquire;
         DrawStatus (Some "Error: You can edit only your messages!");
         LockRelease]
      /\ final (edit_msg (Reference.typed "x")) Reference.pending
         = Reference.pending)
  /\ backend_calls (events (edit_msg (Reference.typed "x")) Reference.pending)
     = [].
Proof.
  split; [split; reflexivity|].
  destruct (edit_msg_rejections Reference.pending (Reference.typed "x"))
    as [H1 H2].
  split; [apply H1; reflexivity | apply H2; reflexivity].
Defined.

(** C5 as stated fails: the sender is not the local user, and what the
    status line shows is not exactly "You can edit only your messages!". *)
Lemma edit_msg_status_has_a_level_prefix :
  is_me Reference.two_chats
    (sender_user_id (current_msg Reference.two_chats)) = false
  /\ status_texts (events (edit_msg (Reference.typed "x")) Reference.two_chats)
     <> [Some "You can edit only your messages!"].
Proof. split; [reflexivity | discriminate]. Qed.

Section Mute.
Context `{C : Collaborators}.

Lemma toggle_mute_run (w : World) (chat : Chat) :
  chats (model w) !! current_chat (model w) = Some chat ->
  toggle_mute w
  = (Ok tt,
     mkWorld
       (set_chats
          (<[current_chat (model w) :=
             set_notification_settings
               (mkNotificationSettings
                  (toggled (mute_for (notification_settings chat)))) chat]>
           (chats (model w))) (model w))
       (chat_size w)
       (trace w ++ [TgSetChatNotificationSettings (chat_id chat)
                      (mkNotificationSettings
                         (toggled (mute_for (notification_settings chat))))])).
Proof.
  intros H. unfold toggle_mute, selected_chat, toggled. ctl. rewrite H.
  by destruct (truthy_Z (mute_for (notification_settings chat))).
Qed.

Lemma m_key_run (w : World) (r : Z) (chat : Chat) :
  chats (model w) !! current_chat (model w) = Some chat ->
  handle_chats_key r "m" w
  = (Ok ChatList,
     mkWorld
       (set_chats
          (<[current_chat (model w) :=
             set_notification_settings
               (mkNotificationSettings
                  (toggled (mute_for (notification_settings chat)))) chat]>
           (chats (model w))) (model w))
       (chat_size w)
       ((trace w ++ [Log INFO "Pressed keys: %s"])
        ++ [TgSetChatNotificationSettings (chat_id chat)
              (mkNotificationSettings
                 (toggled (mute_for (notification_settings chat))))])).
Proof.
  intros H. unfold handle_chats_key. simpl.
  unfold bind at 1. unfold emit at 1. unfold bind at 1.
  rewrite (toggle_mute_run _ chat) by exact H. reflexivity.
Qed.

Lemma toggled_twice (mute : Z) : toggled (toggled (toggled mute)) = toggled mute.
Proof. unfold toggled, truthy_Z. by destruct (Z.eqb mute 0). Qed.

(** C6. The "m" key makes one set-notification-settings call for the
    selected chat: it asks for mute_for = 2147483647 when the chat's mute_for
    is 0 and for mute_for = 0 otherwise.  The toggle writes the requested
    value into the Store's chat, so the requests alternate: the third equals
    the first, and an unmuted chat is back at 0 after two toggles. *)
Theorem mute_toggle_requests (m : Model) (r : Z) (chat : Chat) :
  chats m !! current_chat m = Some chat ->
  events (handle_chats_key r "m") m
  = [Log INFO "Pressed keys: %s";
     TgSetChatNotificationSettings (chat_id chat)
       (mkNotificationSettings (toggled (mute_for (notification_settings chat))))]
  /\ (mute_for (notification_settings chat) = 0 ->
      mute_requests (events (handle_chats_key r "m") m)
      = [(chat_id chat, 2147483647)])
  /\ (mute_for (notification_settings chat) <> 0 ->
      mute_requests (events (handle_chats_key r "m") m) = [(chat_id chat, 0)])
  /\ mute_requests
       (events (loop ChatList [press "m"; press "m"; press "m"]) m)
     = [(chat_id chat, toggled (mute_for (notification_settings chat)));
        (chat_id chat,
         toggled (toggled (mute_for (notification_settings chat))));
        (chat_id chat, toggled (mute_for (notification_settings chat)))]
  /\ (mute_for (notification_settings chat) = 0 ->
      mute_requests (events (loop ChatList [press "m"; press "m"]) m)
      = [(chat_id chat, 2147483647); (chat_id chat, 0)]
      /\ final (loop ChatList [press "m"; press "m"]) m = m).
Proof.
  intros H.
  assert (Hlt : (current_chat m < length (chats m))%nat)
    by (eapply lookup_lt_Some; exact H).
  assert (E1 : events (handle_chats_key r "m") m
    = [Log INFO "Pressed keys: %s";
       TgSetChatNotificationSettings (chat_id chat)
         (mkNotificationSettings
            (toggled (mute_for (notification_settings chat))))]).
  { unfold events, exec. rewrite (m_key_run _ r chat) by exact H. reflexivity. }
  split; [exact E1|]. rewrite E1.
  split. { intros Hz. simpl. unfold toggled. by rewrite Hz. }
  split. { intros Hz. simpl. unfold toggled, truthy_Z.
           destruct (Z.eqb_spec (mute_for (notification_settings chat)) 0);
             [contradiction | done]. }
  set (chat1 := set_notification_settings
         (mkNotificationSettings
            (toggled (mute_for (notification_settings chat)))) chat).
  set (chat2 := set_notification_settings
         (mkNotificationSettings
            (toggled (mute_for (notification_settings chat1)))) chat1).
  assert (R2 : forall rest,
    events (loop ChatList (press "m" :: press "m" :: rest)) m
    = trace (exec (loop ChatList rest)
        (mkWorld (set_chats (<[current_chat m := chat2]> (chats m)) m) Half
           [Log INFO "Pressed keys: %s";
            TgSetChatNotificationSettings (chat_id chat)
              (mkNotificationSettings
                 (toggled (mute_for (notification_settings chat))));
            Log INFO "Pressed keys: %s";
            TgSetChatNotificationSettings (chat_id chat)
              (mkNotificationSettings
                 (toggled (toggled (mute_for (notification_settings chat)))))]))
    /\ final (loop ChatList (press "m" :: press "m" :: rest)) m
       = model (exec (loop ChatList rest)
           (mkWorld (set_chats (<[current_chat m := chat2]> (chats m)) m) Half
           [Log INFO "Pressed keys: %s";
            TgSetChatNotificationSettings (chat_id chat)
              (mkNotificationSettings
                 (toggled (mute_for (notification_settings chat))));
            Log INFO "Pressed keys: %s";
            TgSetChatNotificationSettings (chat_id chat)
              (mkNotificationSettings
                 (toggled (toggled (mute_for (notification_settings chat)))))]))).
  { intros rest. unfold events, final, exec. simpl loop.
    unfold bind at 1 3. simpl step.
    rewrite (m_key_run _ 1 chat) by exact H.
    unfold bind at 1 2. simpl step.
    rewrite (m_key_run _ 1 chat1)
      by (simpl; apply list_lookup_insert_eq; exact Hlt).
    simpl. rewrite list_insert_insert_eq. done. }
  split.
  - rewrite (proj1 (R2 [press "m"])). unfold exec. simpl loop.
    unfold bind at 1. simpl step.
    rewrite (m_key_run _ 1 chat2)
      by (simpl; apply list_lookup_insert_eq; exact Hlt).
    simpl. by rewrite toggled_twice.
  - intros Hz. destruct (R2 []) as [Ha Hb]. rewrite Ha, Hb.
    assert (E2 : chat2 = chat).
    { subst chat2 chat1. destruct chat as [? ? ? ? ? ? ? ? [mute]].
      simpl in *. subst mute. reflexivity. }
    rewrite E2. unfold exec. simpl. split.
    + unfold toggled. rewrite Hz. reflexivity.
    + rewrite list_insert_id by exact H. by destruct m.
Qed.

End Mute.

Lemma mute_toggle_on_sample_chats :
  (chats Reference.two_chats !! current_chat Reference.two_chats
   = Some (Reference.a_chat 1 5 0)
   /\ mute_requests (events (handle_chats_key 1 "m") Reference.two_chats)
      = [(1, 2147483647)]
   /\ mute_requests
        (events (loop ChatList [press "m"; press "m"]) Reference.two_chats)
      = [(1, 2147483647); (1, 0)]
   /\ final (loop ChatList [press "m"; press "m"]) Reference.two_chats
      = Reference.two_chats)
  /\ (chats Reference.muted_chat !! current_chat Reference.muted_chat
      = Some (Reference.a_chat 2 10 3600)
      /\ mute_requests (events (handle_chats_key 1 "m") Reference.muted_chat)
         = [(2, 0)]).
Proof.
  split.
  - split; [reflexivity|].
    destruct (mute_toggle_requests Reference.two_chats 1
                (Reference.a_chat 1 5 0) eq_refl)
      as (_ & H0 & _ & _ & H2).
    split; [apply H0; reflexivity | apply H2; reflexivity].
  - split; [reflexivity|].
    destruct (mute_toggle_requests Reference.muted_chat 1
                (Reference.a_chat 2 10 3600) eq_refl)
      as (_ & _ & H1 & _).
    apply H1. discriminate.
Defined.

Section ChatUpdates.
Context `{C : Collaborators}.

Lemma render_run (w : World) :
  render w
  = (Ok tt, mkWorld (model w) (chat_size w) (trace w ++ events render (model w))).
Proof.
  unfold events, exec, render, refresh_msgs. ctl.
  destruct (get_current_chat_msg_idx (model w)); simpl;
    rewrite <- !app_assoc; destruct w; reflexivity.
Qed.

Lemma render_draws (m : Model) : draws (events render m) <> [].
Proof.
  unfold draws, events, exec, render, refresh_msgs. ctl.
  destruct (get_current_chat_msg_idx m); simpl; discriminate.
Qed.

Lemma chat_mutation_shape (u : Update) (chat : Z) (fields : list ChatField) :
  chat_mutation u = Some (chat, fields) ->
  exists lg, dispatch u = chat_handler lg chat fields.
Proof.
  destruct u; simpl; intros H; inversion H; subst; eexists; reflexivity.
Qed.

Lemma chat_handler_run (lg : string) (chat : Z) (fields : list ChatField)
    (w : World) :
  let current := id_by_index (chats (model w)) (current_chat (model w)) in
  let l := update_chat chat fields (chats (model w)) in
  let m' :=
    set_current_chat (reselect current l (current_chat (model w)))
      (set_chats l (model w)) in
  chat_handler lg chat fields w
  = (Ok tt,
     mkWorld m' (chat_size w)
       (trace w ++ Log INFO lg ::
          match current with
          | Some _ => events render m'
          | None => []
          end)).
Proof.
  unfold chat_handler, current_chat_id, _refresh_current_chat, reselect,
    render, refresh_msgs. ctl.
  destruct (id_by_index (chats (model w)) (current_chat (model w)))
    as [id|]; simpl; [|reflexivity].
  destruct (index_of_chat id 0 (update_chat chat fields (chats (model w))))
    as [i|]; unfold set_current_chat, set_chats; simpl;
    match goal with
    | |- context [get_current_chat_msg_idx ?x] =>
        destruct (get_current_chat_msg_idx x)
    end; simpl; rewrite <- ?app_assoc; reflexivity.
Qed.

End ChatUpdates.

Lemma index_of_chat_found (id : Z) (l : list Chat) :
  forall k i,
    index_of_chat id k l = Some i ->
    (k <= i)%nat
    /\ id_by_index l (i - k) = Some id
    /\ forall j, (j < i - k)%nat -> id_by_index l j <> Some id.
Proof.
  unfold id_by_index.
  induction l as [|c rest IH]; intros k i H; simpl in H; [discriminate|].
  case_bool_decide as Hc.
  - inversion H; subst i. replace (k - k)%nat with 0%nat by lia.
    split; [lia|]. split; [simpl; by rewrite Hc | intros j Hj; lia].
  - apply IH in H as (Hk & Hi & Hj).
    split; [lia|].
    replace (i - k)%nat with (S (i - S k)) by lia. split; [exact Hi|].
    intros [|j] Hlt; simpl.
    + intros E. inversion E. contradiction.
    + apply Hj. lia.
Qed.

Lemma index_of_chat_listed (id : Z) (l : list Chat) :
  forall k, id ∈ (chat_id <$> l) -> is_Some (index_of_chat id k l).
Proof.
  induction l as [|c rest IH]; intros k H; simpl in *.
  - by apply elem_of_nil in H.
  - case_bool_decide as Hc; [by eexists|].
    apply elem_of_cons in H as [H|H]; [congruence | by apply IH].
Qed.

(** A merge that only reorders the chats keeps the selected chat listed. *)
Lemma selected_chat_stays_listed (l l' : list Chat) (i : nat) (current : Z) :
  id_by_index l i = Some current ->
  chat_id <$> l' ≡ₚ chat_id <$> l ->
  current ∈ (chat_id <$> l').
Proof.
  unfold id_by_index. intros Hi Hp. rewrite Hp.
  destruct (l !! i) as [c|] eqn:E; [|discriminate].
  inversion Hi; subst. apply list_elem_of_fmap. exists c. split; [done|].
  eapply list_elem_of_lookup_2. exact E.
Qed.

Section Selection.
Context `{C : Collaborators}.

(** C2. When a chat is selected, an update_chat_order event reads the
    selected chat's id from the list as it is before the merge, merges the
    order, and leaves the selection on the first position that id has in the
    merged list; then it renders. *)
Theorem update_chat_order_follows_selected_chat (m : Model)
    (chat order current : Z) :
  id_by_index (chats m) (current_chat m) = Some current ->
  current ∈ (chat_id <$> update_chat chat [F_order order] (chats m)) ->
  chats (final (update_chat_order chat order) m)
  = update_chat chat [F_order order] (chats m)
  /\ id_by_index (chats (final (update_chat_order chat order) m))
       (current_chat (final (update_chat_order chat order) m)) = Some current
  /\ (forall j,
        (j < current_chat (final (update_chat_order chat order) m))%nat ->
        id_by_index (chats (final (update_chat_order chat order) m)) j
        <> Some current)
  /\ events (update_chat_order chat order) m
     = Log INFO "Proccessing updateChatOrder"
       :: events render (final (update_chat_order chat order) m).
Proof.
  intros Hsel Hin.
  change (update_chat_order chat order)
    with (chat_handler "Proccessing updateChatOrder" chat [F_order order]).
  unfold events at 1, final, exec.
  rewrite chat_handler_run. simpl. rewrite Hsel. simpl.
  destruct (index_of_chat_listed current _ 0%nat Hin) as [i Hi].
  rewrite Hi. simpl.
  apply index_of_chat_found in Hi as (_ & Hat & Hbefore).
  rewrite Nat.sub_0_r in Hat, Hbefore.
  split; [reflexivity|]. split; [exact Hat|]. split; [exact Hbefore|].
  reflexivity.
Qed.

(** C8 (as the code has it). Each of the seven chat-mutating handlers merges
    the fields into the Store and then, whenever the selection index named a
    chat before the merge, whichever chat the event is about, moves the
    selection to the first position that chat's id has in the merged list
    (the index stays as it is if the id is no longer listed) and renders;
    nothing is drawn, and the selection is not touched, only when no chat was
    selected. *)
Theorem chat_update_renders_when_a_chat_is_selected (u : Update) (chat : Z)
    (fields : list ChatField) (m : Model) :
  chat_mutation u = Some (chat, fields) ->
  chats (final (dispatch u) m) = update_chat chat fields (chats m)
  /\ (id_by_index (chats m) (current_chat m) = None ->
      draws (events (dispatch u) m) = []
      /\ final (dispatch u) m = set_chats (update_chat chat fields (chats m)) m)
  /\ (forall current,
        id_by_index (chats m) (current_chat m) = Some current ->
        final (dispatch u) m
        = set_current_chat
            (default (current_chat m)
               (index_of_chat current 0 (update_chat chat fields (chats m))))
            (set_chats (update_chat chat fields (chats m)) m)
        /\ (current ∈ (chat_id <$> update_chat chat fields (chats m)) ->
            id_by_index (chats (final (dispatch u) m))
              (current_chat (final (dispatch u) m)) = Some current
            /\ forall j,
                 (j < current_chat (final (dispatch u) m))%nat ->
                 id_by_index (chats (final (dispatch u) m)) j <> Some current)
        /\ draws (events (dispatch u) m) <> []
        /\ exists lg,
             events (dispatch u) m
             = Log INFO lg :: events render (final (dispatch u) m)).
Proof.
  intros Hu. apply chat_mutation_shape in Hu as [lg ->].
  unfold events, final, exec. rewrite chat_handler_run. simpl.
  split; [reflexivity|]. split.
  - intros ->. simpl. split; [reflexivity | by destruct m].
  - intros current ->. simpl.
    split; [reflexivity|]. split; [|split; [|by exists lg]].
    + intros Hin.
      destruct (index_of_chat_listed current _ 0%nat Hin) as [i Hi].
      rewrite Hi. simpl.
      apply index_of_chat_found in Hi as (_ & Hat & Hbefore).
      rewrite Nat.sub_0_r in Hat, Hbefore. split; assumption.
    + unfold draws. apply render_draws.
Qed.

End Selection.

Lemma update_chat_order_moves_the_cursor :
  (id_by_index (chats Reference.two_chats) (current_chat Reference.two_chats)
   = Some 1
   /\ 1 ∈ (chat_id <$> update_chat 1 [F_order 20] (chats Reference.two_chats)))
  /\ chat_id <$> chats (final (update_chat_order 1 20) Reference.two_chats)
     = [1; 2]
  /\ current_chat (final (update_chat_order 1 20) Reference.two_chats) = 0%nat
  /\ id_by_index (chats (final (update_chat_order 1 20) Reference.two_chats))
       (current_chat (final (update_chat_order 1 20) Reference.two_chats))
     = Some 1.
Proof.
  assert (H1 : id_by_index (chats Reference.two_chats)
                 (current_chat Reference.two_chats) = Some 1) by reflexivity.
  assert (H2 : 1 ∈ (chat_id <$>
                 update_chat 1 [F_order 20] (chats Reference.two_chats)))
    by (vm_compute; left).
  split; [split; assumption|].
  split; [reflexivity|]. split; [reflexivity|].
  apply (update_chat_order_follows_selected_chat Reference.two_chats 1 20 1
           H1 H2).
Defined.

(** C8 as stated fails: the title of chat 2 changes while chat 1 is the one
    displayed, and the handler draws all the same. *)
Lemma background_chat_update_redraws :
  id_by_index (chats Reference.two_chats) (current_chat Reference.two_chats)
  = Some 1
  /\ draws (events (dispatch (UpdateChatTitle 2 "renamed")) Reference.two_chats)
     <> [].
Proof. split; [reflexivity | discriminate]. Qed.

Lemma order_update_of_a_background_chat :
  (chat_mutation (UpdateChatOrder 2 1) = Some (2, [F_order 1])
   /\ id_by_index (chats Reference.two_chats)
        (current_chat Reference.two_chats) = Some 1
   /\ 1 ∈ (chat_id <$> update_chat 2 [F_order 1] (chats Reference.two_chats)))
  /\ chat_id <$> chats (final (dispatch (UpdateChatOrder 2 1))
                          Reference.two_chats) = [1; 2]
  /\ current_chat (final (dispatch (UpdateChatOrder 2 1)) Reference.two_chats)
     = 0%nat
  /\ id_by_index
       (chats (final (dispatch (UpdateChatOrder 2 1)) Reference.two_chats))
       (current_chat (final (dispatch (UpdateChatOrder 2 1))
                        Reference.two_chats)) = Some 1
  /\ draws (events (dispatch (UpdateChatOrder 2 1)) Reference.two_chats) <> []
  /\ (id_by_index (chats Reference.no_chats) (current_chat Reference.no_chats)
      = None
      /\ draws (events (dispatch (UpdateChatOrder 2 1)) Reference.no_chats)
         = []).
Proof.
  assert (Hin : 1 ∈ (chat_id <$>
                  update_chat 2 [F_order 1] (chats Reference.two_chats)))
    by (vm_compute; left).
  split; [split; [reflexivity | split; [reflexivity | exact Hin]]|].
  split; [reflexivity|]. split; [reflexivity|].
  destruct (chat_update_renders_when_a_chat_is_selected
              (UpdateChatOrder 2 1) 2 [F_order 1]
              Reference.two_chats eq_refl) as (_ & _ & H).
  destruct (H 1 eq_refl) as (_ & Hsel & Hdraw & _).
  split; [exact (proj1 (Hsel Hin))|]. split; [exact Hdraw|].
  split; [reflexivity|].
  destruct (chat_update_renders_when_a_chat_is_selected
              (UpdateChatOrder 2 1) 2 [F_order 1]
              Reference.no_chats eq_refl) as (_ & H0 & _).
  apply H0. reflexivity.
Defined.

(** After the scan of [_notify_for_message] the loop variable holds the first
    chat with the id, or else the last chat of the list, or else its initial
    value. *)
Lemma chat_after_scan_spec (id : Z) (l : list Chat) :
  forall o,
    chat_after_scan o id l
    = match lookup_chat id l with
      | Some c => Some c
      | None => match last l with
                | Some c => Some c
                | None => o
                end
      end.
Proof.
  induction l as [|c rest IH]; intros o; simpl; [reflexivity|].
  destruct (bool_decide_reflect (id = chat_id c)) as [E|E];
    destruct (bool_decide_reflect (chat_id c = id)) as [E'|E'];
    try congruence; try reflexivity.
  rewrite IH. destruct (lookup_chat id rest); [reflexivity|].
  destruct rest as [|d rest']; [reflexivity|].
  change (last (c :: d :: rest')) with (last (d :: rest')).
  destruct (last (d :: rest')) eqn:El; [reflexivity|].
  apply last_None in El. discriminate.
Qed.

Section NewMessage.
Context `{C : Collaborators}.

(** C3. A new-message event whose message carries a file of a size below
    [max_download_size] makes exactly one download_file call, for that file
    id, and enters the file id in the registry with the message's
    (chat id, message id). *)
Theorem new_msg_downloads_small_file (m : Model) (msg : Msg) (f : Z) :
  file_id (content msg) = Some f ->
  f <> 0 ->
  size (content msg) < max_download_size ->
  outcome (update_new_msg msg) m = Ok tt
  /\ download_calls (events (update_new_msg msg) m) = [f]
  /\ downloads (final (update_new_msg msg) m)
     = <[f := (msg_chat_id msg, msg_id msg)]> (downloads m).
Proof.
  intros Hf Hnz Hsize.
  assert (Ht : truthy_Z f = true)
    by (unfold truthy_Z; destruct (Z.eqb_spec f 0); [contradiction | done]).
  assert (Hle : (size (content msg) <=? max_download_size)%Z = true)
    by (apply Z.leb_le; lia).
  unfold update_new_msg, current_chat_id, refresh_msgs, download,
    _notify_for_message. ctl. rewrite Hf, Ht, Hle. simpl.
  repeat match goal with
         | |- context [bool_decide ?P] => destruct (bool_decide P); simpl
         | |- context [get_current_chat_msg_idx ?x] =>
             destruct (get_current_chat_msg_idx x); simpl
         | |- context [chat_after_scan ?o ?i ?l] =>
             destruct (chat_after_scan o i l); simpl
         | |- context [truthy_Z ?z] => destruct (truthy_Z z); simpl
         | |- context [is_me ?x ?y] => destruct (is_me x y); simpl
         end; done.
Qed.

(** Where the chat of a new message is in the chat list, the notification
    policy is kept: a desktop notification is raised exactly when that
    chat's mute_for is 0 and the sender is not the local user; its title is
    the sender's first and last name, its body the text of a text message and
    the content type of any other. *)
Theorem new_msg_notification (m : Model) (msg : Msg) (c : Chat) :
  lookup_chat (msg_chat_id msg) (chats m) = Some c ->
  notifications (events (update_new_msg msg) m)
  = (if Z.eqb (mute_for (notification_settings c)) 0
        && negb (is_me m (sender_user_id msg))
     then
       [(first_name (get_user (final (update_new_msg msg) m) (sender_user_id msg))
           ++ " "
           ++ last_name (get_user (final (update_new_msg msg) m)
                           (sender_user_id msg)),
         if is_text (content msg) then text_content (content msg)
         else content_type (content msg))]
     else [])
  /\ (notifications (events (update_new_msg msg) m) <> []
      <-> mute_for (notification_settings c) = 0
          /\ sender_user_id msg <> me_id m).
Proof.
  intros Hc.
  assert (E : notifications (events (update_new_msg msg) m)
    = (if Z.eqb (mute_for (notification_settings c)) 0
          && negb (is_me m (sender_user_id msg))
       then
         [(first_name
             (get_user (final (update_new_msg msg) m) (sender_user_id msg))
             ++ " "
             ++ last_name (get_user (final (update_new_msg msg) m)
                             (sender_user_id msg)),
           if is_text (content msg) then text_content (content msg)
           else content_type (content msg))]
       else [])).
  { unfold update_new_msg, current_chat_id, refresh_msgs, download,
      _notify_for_message, is_me, truthy_Z. ctl.
    repeat match goal with
           | |- context [bool_decide (?x = Some ?y)] =>
               destruct (bool_decide (x = Some y)); simpl
           | |- context [get_current_chat_msg_idx ?x] =>
               destruct (get_current_chat_msg_idx x); simpl
           | |- context [file_id ?x] => destruct (file_id x); simpl
           | |- context [(?a <=? ?b)%Z] => destruct (a <=? b)%Z; simpl
           | |- context [negb (Z.eqb ?z 0) && _] =>
               destruct (negb (Z.eqb z 0)); simpl
           end;
      rewrite chat_after_scan_spec, Hc; simpl;
      destruct (Z.eqb (mute_for (notification_settings c)) 0); simpl;
        try reflexivity;
      destruct (bool_decide (me_id m = sender_user_id msg)); reflexivity. }
  split; [exact E|]. rewrite E. unfold is_me.
  destruct (Z.eqb_spec (mute_for (notification_settings c)) 0) as [Hz|Hz];
    destruct (bool_decide_reflect (me_id m = sender_user_id msg)) as [Hm|Hm];
    simpl; split; try done; intros [? ?]; congruence.
Qed.

End NewMessage.

Lemma new_photo_is_downloaded_once :
  (file_id (content (Reference.photo 22 2 7 71 2048)) = Some 71
   /\ 71 <> 0
   /\ size (content (Reference.photo 22 2 7 71 2048)) < max_download_size)
  /\ outcome (update_new_msg (Reference.photo 22 2 7 71 2048))
       Reference.two_chats = Ok tt
  /\ download_calls
       (events (update_new_msg (Reference.photo 22 2 7 71 2048))
          Reference.two_chats) = [71]
  /\ downloads
       (final (update_new_msg (Reference.photo 22 2 7 71 2048))
          Reference.two_chats)
     = <[71 := (2, 22)]> (downloads Reference.two_chats).
Proof.
  split; [split; [reflexivity | split; [discriminate | reflexivity]]|].
  apply (new_msg_downloads_small_file Reference.two_chats
           (Reference.photo 22 2 7 71 2048) 71);
    [reflexivity | discriminate | reflexivity].
Defined.

Lemma new_text_in_an_unmuted_chat_notifies :
  lookup_chat (msg_chat_id (Reference.text 12 1 7 "ping"))
    (chats Reference.two_chats) = Some (Reference.a_chat 1 5 0)
  /\ notifications
       (events (update_new_msg (Reference.text 12 1 7 "ping"))
          Reference.two_chats) = [("Ada Lovelace", "ping")].
Proof.
  split; [reflexivity|].
  exact (proj1 (new_msg_notification Reference.two_chats
                  (Reference.text 12 1 7 "ping") (Reference.a_chat 1 5 0)
                  eq_refl)).
Defined.

(** With no chat loaded, the chat of the message is not found, [chat] keeps
    its initial [None], the mute check is skipped and the notification is
    raised. *)
Lemma new_msg_of_an_unlisted_chat_notifies :
  lookup_chat (msg_chat_id (Reference.text 31 5 7 "ping"))
    (chats Reference.no_chats) = None
  /\ notifications
       (events (update_new_msg (Reference.text 31 5 7 "ping"))
          Reference.no_chats) = [("Ada Lovelace", "ping")].
Proof. split; reflexivity. Qed.

(** C7 (the code misses it). A message of user 7 arrives for chat 5, which
    is not in the chat list, so no chat found by its id is muted, and the
    sender is not the local user: the notification is due, and it is raised
    when no chat is loaded.  With chat 2 loaded and muted it is not raised:
    the scan leaves its loop variable on the last chat of the list instead
    of the initial [None], and the mute_for of that other chat suppresses
    the notification. *)
Theorem new_msg_of_an_unlisted_chat_and_a_muted_last_chat :
  (lookup_chat (msg_chat_id (Reference.text 31 5 7 "ping"))
     (chats Reference.muted_chat) = None
   /\ is_me Reference.muted_chat
        (sender_user_id (Reference.text 31 5 7 "ping")) = false)
  /\ chat_after_scan None (msg_chat_id (Reference.text 31 5 7 "ping"))
       (chats Reference.muted_chat) = Some (Reference.a_chat 2 10 3600)
  /\ notifications
       (events (update_new_msg (Reference.text 31 5 7 "ping"))
          Reference.muted_chat) = []
  /\ notifications
       (events (update_new_msg (Reference.text 31 5 7 "ping"))
          Reference.no_chats) = [("Ada Lovelace", "ping")].
Proof. repeat split. Qed.

Section Files.
Context `{C : Collaborators}.

(** C4 (as the code has it). A file-status event for a file id that is not
    in the registry is logged and changes nothing.  For a registered file id
    whose registered message is still in its chat's list and still carries a
    file, the handler stores the event's local state in that message, then
    calls [refresh_msgs] on the Store so updated (the message pane is redrawn
    when there is a message cursor), and then removes the entry if the event
    says the file is fully local.  When the message is no longer in the list,
    the handler only logs and the registry stays as it is. *)
Theorem update_file_registry (m : Model) (file : Z) (file_local : LocalFile) :
  (downloads m !! file = None ->
   outcome (update_file file file_local) m = Ok tt
   /\ events (update_file file file_local) m
      = [Log INFO "update_file: %s";
         Log WARNING "Can't find information about file with file_id=%s"]
   /\ final (update_file file file_local) m = m)
  /\ (forall chat id l i msg,
        downloads m !! file = Some (chat, id) ->
        msgs m !! chat = Some l ->
        find_msg id 0 l = Some (i, msg) ->
        is_Some (file_id (content msg)) ->
        outcome (update_file file file_local) m = Ok tt
        /\ msgs (final (update_file file file_local) m)
           = <[chat := <[i := set_local file_local msg]> l]> (msgs m)
        /\ events (update_file file file_local) m
           = Log INFO "update_file: %s"
             :: events refresh_msgs
                  (set_msgs
                     (<[chat := <[i := set_local file_local msg]> l]> (msgs m))
                     m)
        /\ downloads (final (update_file file file_local) m)
           = (if is_downloading_completed file_local
              then delete file (downloads m) else downloads m))
  /\ (forall chat id l,
        downloads m !! file = Some (chat, id) ->
        msgs m !! chat = Some l ->
        find_msg id 0 l = None ->
        events (update_file file file_local) m = [Log INFO "update_file: %s"]
        /\ final (update_file file file_local) m = m).
Proof.
  unfold update_file, refresh_msgs, is_downloaded.
  split; [|split].
  - intros H. ctl. rewrite H. simpl.
    split; [done|]. split; [done | by destruct m].
  - intros chat id l i msg Hd Hm Hf _. ctl. rewrite Hd, Hm, Hf. simpl.
    match goal with
    | |- context [get_current_chat_msg_idx ?x] =>
        destruct (get_current_chat_msg_idx x); simpl
    end;
      destruct (is_downloading_completed file_local); simpl; done.
  - intros chat id l Hd Hm Hf. ctl. rewrite Hd, Hm, Hf. simpl.
    split; [done | by destruct m].
Qed.

End Files.

Lemma file_status_events_on_sample_registries :
  (downloads Reference.two_chats !! 70 = None
   /\ final (update_file 70 (mkLocalFile true "/home/me/cat.png"))
        Reference.two_chats = Reference.two_chats)
  /\ ((downloads Reference.pending !! 70 = Some (2, 21)
       /\ msgs Reference.pending !! 2 = Some [Reference.photo 21 2 7 70 2048]
       /\ find_msg 21 0 [Reference.photo 21 2 7 70 2048]
          = Some (0%nat, Reference.photo 21 2 7 70 2048)
       /\ is_Some (file_id (content (Reference.photo 21 2 7 70 2048))))
      /\ events (update_file 70 (mkLocalFile true "/home/me/cat.png"))
           Reference.pending
         = [Log INFO "update_file: %s";
            DrawMsgs 0
              [set_local (mkLocalFile true "/home/me/cat.png")
                 (Reference.photo 21 2 7 70 2048)] 2]
      /\ downloads
           (final (update_file 70 (mkLocalFile true "/home/me/cat.png"))
              Reference.pending) = ∅)
  /\ ((downloads Reference.msg_deleted !! 70 = Some (2, 21)
       /\ msgs Reference.msg_deleted !! 2 = Some []
       /\ find_msg 21 0 [] = None)
      /\ final (update_file 70 (mkLocalFile true "/home/me/cat.png"))
           Reference.msg_deleted = Reference.msg_deleted).
Proof.
  split; [|split].
  - split; [reflexivity|].
    apply (proj1 (update_file_registry Reference.two_chats 70
                    (mkLocalFile true "/home/me/cat.png"))).
    reflexivity.
  - assert (Hfile : is_Some
                      (file_id (content (Reference.photo 21 2 7 70 2048))))
      by (eexists; reflexivity).
    split; [repeat split; exact Hfile|].
    destruct (update_file_registry Reference.pending 70
                (mkLocalFile true "/home/me/cat.png")) as (_ & H & _).
    destruct (H 2 21 [Reference.photo 21 2 7 70 2048] 0%nat
                (Reference.photo 21 2 7 70 2048) eq_refl eq_refl eq_refl Hfile)
      as (_ & _ & He & Hd).
    split; [rewrite He; reflexivity | rewrite Hd; reflexivity].
  - split; [repeat split|].
    destruct (update_file_registry Reference.msg_deleted 70
                (mkLocalFile true "/home/me/cat.png")) as (_ & _ & H).
    apply (H 2 21 [] eq_refl eq_refl eq_refl).
Defined.

(** C4 as stated fails: file 70 is in the registry and has become fully
    local, and its entry is still there after the event, because the
    registered message has left its chat's list. *)
Lemma completed_download_of_a_deleted_message_stays :
  downloads Reference.msg_deleted !! 70 = Some (2, 21)
  /\ is_downloading_completed (mkLocalFile true "/home/me/cat.png") = true
  /\ downloads
       (final (update_file 70 (mkLocalFile true "/home/me/cat.png"))
          Reference.msg_deleted) !! 70 = Some (2, 21).
Proof. repeat split. Qed.

(** ** The Render Gate *)

Module GateFacts.
Import Gate.

Lemma step_disciplined (t : Thread) (st st' : State) :
  step t st = Some st' ->
  (forall u, disciplined u st) ->
  forall u, disciplined u st'.
Proof.
  intros Hstep Hall u.
  pose proof (Hall MainThread) as [Gm Dm].
  pose proof (Hall UpdateThread) as [Gu Du].
  unfold step in Hstep. unfold disciplined, holds in *.
  destruct t, u; simpl in *;
    destruct st as [lk [pm dm] [pu du]]; simpl in *;
    repeat match goal with
           | H : match ?l with [] => _ | _ :: _ => _ end = Some _ |- _ =>
               destruct l as [|[] ?]; simpl in H; try discriminate
           | H : match ?o with Some _ => _ | None => _ end = Some _ |- _ =>
               destruct o; simpl in H; try discriminate
           | H : (if bool_decide ?P then _ else _) = Some _ |- _ =>
               destruct (bool_decide_reflect P); simpl in H; try discriminate
           | H : Some _ = Some _ |- _ => inversion H; clear H; subst; simpl in *
           end;
    repeat case_bool_decide; simplify_eq; simpl in *;
    destruct dm, du; simpl in *;
    try (split; [done | intros; try done; try (by apply Dm); try (by apply Du)]);
    try (specialize (Dm eq_refl)); try (specialize (Du eq_refl));
    simplify_eq; naive_solver.
Qed.

Lemma run_disciplined (schedule : list Thread) :
  forall st st',
    run schedule st = Some st' ->
    (forall u, disciplined u st) ->
    forall u, disciplined u st'.
Proof.
  induction schedule as [|t rest IH]; intros st st' Hrun Hall; simpl in Hrun.
  - by inversion Hrun; subst.
  - destruct (step t st) as [st1|] eqn:Hstep; [|discriminate].
    eapply IH; [exact Hrun|]. eapply step_disciplined; eassumption.
Qed.

Lemma disciplined_no_overlap (st : State) :
  (forall u, disciplined u st) -> overlap st = false.
Proof.
  intros Hall. unfold overlap.
  destruct (Hall MainThread) as [_ Dm].
  destruct (Hall UpdateThread) as [_ Du]. simpl in *.
  destruct (in_draw (main_thread st)); [|reflexivity].
  destruct (in_draw (update_thread st)); [|reflexivity].
  specialize (Dm eq_refl). specialize (Du eq_refl). congruence.
Qed.

(** Two threads that both keep the lock discipline never draw at the same
    time, whatever the schedule. *)
Lemma gate_excludes_overlap (main_prog update_prog : list Action)
    (schedule : list Thread) (st : State) :
  gated false false main_prog = true ->
  gated false false update_prog = true ->
  run schedule (init main_prog update_prog) = Some st ->
  overlap st = false.
Proof.
  intros Gm Gu Hrun. apply disciplined_no_overlap.
  eapply run_disciplined; [exact Hrun|].
  intros [|]; split; simpl; try done.
Qed.

Section Paths.
Context `{C : Collaborators}.

Ltac cursor :=
  repeat match goal with
         | |- context [get_current_chat_msg_idx ?x] =>
             destruct (get_current_chat_msg_idx x); simpl
         end.

Lemma render_gated (m : Model) :
  gated false false (program (events render m)) = true.
Proof. unfold render, refresh_msgs. ctl. cursor; reflexivity. Qed.

Lemma update_status_gated (level msg : string) (m : Model) :
  gated false false (program (events (update_status level msg) m)) = true.
Proof. reflexivity. Qed.

Lemma chat_handler_gated (lg : string) (chat : Z) (fields : list ChatField)
    (m : Model) :
  gated false false (program (events (chat_handler lg chat fields) m)) = true.
Proof.
  unfold events, exec. rewrite chat_handler_run. simpl.
  destruct (id_by_index (chats m) (current_chat m)); [|reflexivity].
  apply render_gated.
Qed.

(** The message pane is drawn by [refresh_msgs] without the lock. *)
Lemma refresh_msgs_not_gated (m : Model) (i : Z) :
  get_current_chat_msg_idx m = Some i ->
  events refresh_msgs m
  = [DrawMsgs i (fetch_msgs m i msgs_h MSGS_LEFT_SCROLL_THRESHOLD)
       MSGS_LEFT_SCROLL_THRESHOLD]
  /\ gated false false (program (events refresh_msgs m)) = false.
Proof. intros H. unfold refresh_msgs. ctl. rewrite H. done. Qed.

(** Whatever the Store, a message-pane refresh started outside the lock
    and a render can be in their draw calls together: the refresh begins to
    draw, then [render] takes the free lock and begins to draw. *)
Lemma refresh_msgs_overlaps_render (m m' : Model) (i : Z) :
  get_current_chat_msg_idx m = Some i ->
  exists st,
    run [UpdateThread; MainThread; MainThread]
      (init (program (events render m')) (program (events refresh_msgs m)))
    = Some st
    /\ overlap st = true.
Proof.
  intros H. destruct (refresh_msgs_not_gated m i H) as [-> _].
  unfold render, refresh_msgs. ctl. cursor; eexists; split; reflexivity.
Qed.

(** In message-list mode the key "j" refreshes the message pane outside the
    lock as well. *)
Lemma j_key_not_gated (m : Model) (r : Z) (a : Answers) (m1 : Model) (i : Z) :
  next_msg r m = (true, m1) ->
  get_current_chat_msg_idx m1 = Some i ->
  gated false false (program (events (handle_msgs_key r "j" a) m)) = false.
Proof.
  intros Hn Hc. unfold handle_msgs_key, navigate, refresh_msgs. ctl.
  rewrite Hn. simpl. rewrite Hc. reflexivity.
Qed.

(** A chat-mutating update and a render of the main thread cannot overlap. *)
Lemma chat_update_and_render_exclude (u : Update) (chat : Z)
    (fields : list ChatField) (m m' : Model) (schedule : list Thread)
    (st : State) :
  chat_mutation u = Some (chat, fields) ->
  run schedule
    (init (program (events render m)) (program (events (dispatch u) m')))
  = Some st ->
  overlap st = false.
Proof.
  intros Hu. apply chat_mutation_shape in Hu as [lg ->].
  apply gate_excludes_overlap; [apply render_gated | apply chat_handler_gated].
Qed.

End Paths.
End GateFacts.

(** C1 (the code misses it). The update thread handles a new message of the
    displayed chat and is inside the draw of the message pane, which
    [refresh_msgs] starts without taking the lock; the main thread handles
    the key "k", takes the free lock in [render] and begins to draw the chat
    pane.  Both threads are then inside a draw call. *)
Theorem refresh_msgs_draws_outside_the_gate :
  events (update_new_msg (Reference.text 12 1 7 "ping")) Reference.two_chats
  = [DrawMsgs 0 [Reference.text 11 1 7 "hello"; Reference.text 12 1 7 "ping"] 2;
     Notify "ping" "Ada Lovelace"]
  /\ Gate.gated false false
       (Gate.program
          (events (update_new_msg (Reference.text 12 1 7 "ping"))
             Reference.two_chats)) = false
  /\ exists st,
       Gate.run
         [Gate.UpdateThread; Gate.MainThread; Gate.MainThread; Gate.MainThread]
         (Gate.init
            (Gate.program
               (events (handle_chats_key 1 "k")
                  (set_msgs
                     (add_message 1 (Reference.text 12 1 7 "ping")
                        (msgs Reference.two_chats)) Reference.two_chats)))
            (Gate.program
               (events (update_new_msg (Reference.text 12 1 7 "ping"))
                  Reference.two_chats)))
       = Some st
       /\ Gate.lock st = Some Gate.MainThread
       /\ Gate.overlap st = true.
Proof.
  split; [reflexivity|]. split; [reflexivity|].
  eexists. split; [reflexivity|]. split; reflexivity.
Qed.


(** ** Further properties of the Controller *)

Ltac cases :=
  repeat (match goal with
          | |- context [match ?x with _ => _ end] =>
              lazymatch x with
              | context [match _ with _ => _ end] => fail
              | _ => destruct x eqn:?
              end
          end; simpl;
          repeat match goal with
                 | H : ?a = _ |- context [?a] => rewrite H; simpl
                 end).

Ltac handlers :=
  unfold dispatch, update_msg_content, update_new_msg,
    update_msg_send_succeeded, update_file, update_chat_notification_settings,
    update_chat_order, update_chat_title, update_chat_marked_as_unread,
    update_chat_is_pinned, update_chat_read_inbox, update_chat_draft_msg,
    update_chat_last_msg, _refresh_current_chat, _notify_for_message,
    current_chat_id, download, render, refresh_msgs, is_downloaded.

Section UpdateHandlers.
Context `{C : Collaborators}.

(** X1. A content change, a confirmed send or a new message of a chat that
    is not the selected one draws nothing and leaves the chat list and the
    selection as they are. *)
Theorem background_message_update_is_silent (u : Update) (chat : Z)
    (m : Model) :
  message_chat u = Some chat ->
  id_by_index (chats m) (current_chat m) <> Some chat ->
  draws (events (dispatch u) m) = []
  /\ chats (final (dispatch u) m) = chats m
  /\ current_chat (final (dispatch u) m) = current_chat m.
Proof.
  intros Hu Hne.
  destruct u; simpl in Hu; inversion Hu; subst; handlers; ctl;
    match goal with
    | |- context [bool_decide (?x = Some ?y)] =>
        destruct (bool_decide_reflect (x = Some y)) as [E|E];
          [contradiction|]
    end; simpl; cases; done.
Qed.

(** X2. The message-level handlers never take the lock and never draw the
    chat pane or the status line: all they draw is the message pane, from
    [refresh_msgs]. *)
Theorem message_updates_stay_off_the_gate (u : Update) (chat : Z) (m : Model) :
  message_chat u = Some chat ->
  forallb off_gate (events (dispatch u) m) = true
  /\ status_texts (events (dispatch u) m) = [].
Proof.
  intros Hu.
  destruct u; simpl in Hu; inversion Hu; subst; handlers; ctl; cases; done.
Qed.

(** X3. A notification-settings update merges the settings and then always
    renders, under the lock, also when no chat is selected; it keeps the
    selection index as it is. *)
Theorem notification_settings_update_always_renders (chat : Z)
    (settings : NotificationSettings) (m : Model) :
  outcome (update_chat_notification_settings chat settings) m = Ok tt
  /\ final (update_chat_notification_settings chat settings) m
     = set_chats
         (update_chat chat [F_notification_settings settings] (chats m)) m
  /\ events (update_chat_notification_settings chat settings) m
     = Log INFO "Proccessing update_chat_notification_settings"
       :: events render
            (final (update_chat_notification_settings chat settings) m)
  /\ Gate.gated false false
       (Gate.program
          (events (update_chat_notification_settings chat settings) m))
     = true.
Proof.
  handlers. ctl. unfold set_chats. cases; done.
Qed.

(** X4. No update handler writes a text on the status line: the only
    status draw a handler can cause is the bare one of [render].  And of the
    twelve handlers only the new-message one reaches the Controller's
    [notify] call. *)
Theorem update_handlers_status_and_notifications (u : Update) (m : Model) :
  forallb (fun t => bool_decide (t = None))
    (status_texts (events (dispatch u) m)) = true
  /\ match u with
     | UpdateNewMessage _ => True
     | _ => notifications (events (dispatch u) m) = []
     end.
Proof.
  destruct u; handlers; ctl; cases; done.
Qed.

End UpdateHandlers.

Ltac keys_of_modes :=
  unfold handle_chats_key, handle_msgs_key, navigate, toggle_mute,
    selected_chat, download_current_file, download, open_current_msg,
    send_file, send_video, send_voice, edit_msg, write_long_msg, resize,
    present_info, present_error, update_status, render, refresh_msgs, key_in.

Section InputLoop.
Context `{C : Collaborators}.

Lemma loop_stopped (presses : list KeyPress) (w : World) :
  loop Stopped presses w = (Ok Stopped, w).
Proof.
  induction presses as [|k rest IH]; [reflexivity|].
  simpl. unfold bind at 1. simpl. exact IH.
Qed.

(** X5. The key "q" ends the input loop from the chat list and from the
    message list alike: it is logged, nothing else happens, and no later key
    is handled. *)
Theorem quit_stops_both_modes (r : Z) (a : Answers) (rest : list KeyPress)
    (w : World) :
  loop ChatList (mkKeyPress r "q" a :: rest) w
  = (Ok Stopped,
     mkWorld (model w) (chat_size w) (trace w ++ [Log INFO "Pressed keys: %s"]))
  /\ loop MsgList (mkKeyPress r "q" a :: rest) w
     = (Ok Stopped,
        mkWorld (model w) (chat_size w)
          (trace w ++ [Log INFO "Pressed keys: %s"])).
Proof.
  split; simpl; unfold handle_chats_key, handle_msgs_key; ctl;
    rewrite loop_stopped; reflexivity.
Qed.

Lemma handle_msgs_key_keeps_size (r : Z) (keys : string) (a : Answers)
    (w : World) :
  chat_size (snd (handle_msgs_key r keys a w)) = chat_size w.
Proof. keys_of_modes. ctl. cases; reflexivity. Qed.

Lemma resize_run (w : World) :
  exists evs,
    resize w = (Ok tt, mkWorld (model w) (chat_size w) (trace w ++ evs)).
Proof.
  unfold resize. ctl. rewrite render_run. simpl.
  eexists. rewrite <- !app_assoc. reflexivity.
Qed.

Lemma step_fits (mode : Mode) (k : KeyPress) (w : World) :
  mode_fits mode (chat_size w) = true ->
  match step mode k w with
  | (Ok mode', w') => mode_fits mode' (chat_size w') = true
  | (Raise _, _) => True
  end.
Proof.
  intros Hfit. destruct mode; simpl.
  - destruct (chat_size w) eqn:Hs; [|discriminate].
    keys_of_modes. ctl. rewrite Hs. cases; done.
  - pose proof (handle_msgs_key_keeps_size (repeat_factor k) (keys k)
                  (answers k) w) as Hk.
    unfold bind at 1.
    destruct (handle_msgs_key (repeat_factor k) (keys k) (answers k) w)
      as [[[[|]|]|e] w1]; simpl in *; try done.
    + unfold bind at 1 2, set_chat_size at 1. simpl.
      destruct (resize_run (mkWorld (model w1) Half (trace w1))) as [evs ->].
      reflexivity.
    + unfold ret. simpl. by rewrite Hk.
  - reflexivity.
Qed.

Lemma loop_fits (presses : list KeyPress) :
  forall mode w,
    mode_fits mode (chat_size w) = true ->
    match loop mode presses w with
    | (Ok mode', w') => mode_fits mode' (chat_size w') = true
    | (Raise _, _) => True
    end.
Proof.
  induction presses as [|k rest IH]; intros mode w Hfit; simpl; [exact Hfit|].
  unfold bind at 1. pose proof (step_fits mode k w Hfit) as Hs.
  destruct (step mode k w) as [[mode'|e] w1]; [|exact I].
  by apply IH.
Qed.

(** X6. While the input loop runs, the pane share follows the mode: it is
    0.5 whenever the loop is in the chat list and 0.2 whenever it is in the
    message list, whatever keys were pressed. *)
Theorem chat_size_tracks_mode (presses : list KeyPress) (w : World) :
  match handle_chats presses w with
  | (Ok mode, w') => mode_fits mode (chat_size w') = true
  | (Raise _, _) => True
  end.
Proof.
  unfold handle_chats. unfold bind at 1 2, set_chat_size at 1. simpl.
  destruct (resize_run (mkWorld (model w) Half (trace w))) as [evs ->].
  by apply loop_fits.
Qed.

End InputLoop.

Ltac known :=
  repeat match goal with
         | H : ?a = _ |- context [?a] => rewrite H; simpl
         end.

Ltac split_orb :=
  repeat match goal with
         | E : _ || _ = false |- _ =>
             let E1 := fresh "E" in
             let E2 := fresh "E" in
             destruct (proj1 (orb_false_iff _ _) E) as [E1 E2]; clear E
         end.

Section Keys.
Context `{C : Collaborators}.

(** X7. With no chat under the selection index, the keys "u", "p", "r" and
    "m" fail with an IndexError before any backend call; [run] logs the
    failure and the input loop is over: the keys typed after it are never
    handled. *)
Theorem selection_keys_fail_without_a_chat (r : Z) (keys : string)
    (a : Answers) (rest : list KeyPress) (m : Model) :
  chats m !! current_chat m = None ->
  keys ∈ ["u"; "p"; "r"; "m"] ->
  outcome (handle_chats_key r keys) m = Raise IndexError
  /\ events (handle_chats_key r keys) m = [Log INFO "Pressed keys: %s"]
  /\ final (handle_chats_key r keys) m = m
  /\ events (run (mkKeyPress r keys a :: rest)) m
     = (events (run []) m
        ++ [Log INFO "Pressed keys: %s";
            Log ERROR "Error happened in main loop"])%list.
Proof.
  intros Hnone Hk.
  repeat (apply elem_of_cons in Hk as [->|Hk]); [| | | |by apply elem_of_nil in Hk];
    (split; [|split; [|split]]);
    unfold run, handle_chats; simpl; keys_of_modes; ctl; known; cases;
    try done; by destruct m.
Qed.

(** X8. With a chat selected, "u" and "p" ask the backend for the negation
    of the flag the Store holds and "r" marks the chat's last message as
    read; none of them changes the Model, so pressing "u" or "p" again sends
    the same request again. *)
Theorem unread_pin_read_keys_leave_the_store (r : Z) (m : Model) (chat : Chat) :
  chats m !! current_chat m = Some chat ->
  (events (handle_chats_key r "u") m
   = [Log INFO "Pressed keys: %s";
      TgToggleChatIsMarkedAsUnread (chat_id chat)
        (negb (is_marked_as_unread chat))]
   /\ final (handle_chats_key r "u") m = m)
  /\ (events (handle_chats_key r "p") m
      = [Log INFO "Pressed keys: %s";
         TgToggleChatIsPinned (chat_id chat) (negb (is_pinned chat))]
      /\ final (handle_chats_key r "p") m = m)
  /\ (events (handle_chats_key r "r") m
      = [Log INFO "Pressed keys: %s";
         TgViewMessages (chat_id chat) [msg_id (last_message chat)]]
      /\ final (handle_chats_key r "r") m = m)
  /\ backend_calls (events (loop ChatList [press "u"; press "u"]) m)
     = [TgToggleChatIsMarkedAsUnread (chat_id chat)
          (negb (is_marked_as_unread chat));
        TgToggleChatIsMarkedAsUnread (chat_id chat)
          (negb (is_marked_as_unread chat))]
  /\ backend_calls (events (loop ChatList [press "p"; press "p"]) m)
     = [TgToggleChatIsPinned (chat_id chat) (negb (is_pinned chat));
        TgToggleChatIsPinned (chat_id chat) (negb (is_pinned chat))].
Proof.
  intros Hsel.
  repeat split; simpl; do 2 (keys_of_modes; ctl; known); try done;
    by destruct m.
Qed.

(** X9. A key chord that has no branch is logged and ignored in both modes,
    and so are "/", "gg" and "r" in the message list: the Model and the
    screen stay as they are and the loop goes on. *)
Theorem unknown_keys_are_ignored (r : Z) (keys : string) (a : Answers)
    (w : World) :
  (key_in keys chat_list_keys = false ->
   handle_chats_key r keys w
   = (Ok ChatList,
      mkWorld (model w) (chat_size w)
        (trace w ++ [Log INFO "Pressed keys: %s"])))
  /\ (key_in keys msg_list_keys = false \/ keys ∈ ["/"; "gg"; "r"] ->
      handle_msgs_key r keys a w
      = (Ok None,
         mkWorld (model w) (chat_size w)
           (trace w ++ [Log INFO "Pressed keys: %s"]))).
Proof.
  split.
  - unfold key_in, chat_list_keys. simpl. intros H.
    split_orb.
    keys_of_modes. ctl. known. reflexivity.
  - intros [H|H].
    + unfold key_in, msg_list_keys in H. simpl in H.
      split_orb.
      keys_of_modes. ctl. known. reflexivity.
    + repeat (apply elem_of_cons in H as [->|H]);
        [| | |by apply elem_of_nil in H]; reflexivity.
Qed.


(** X11. A message is sent only if its text is not empty.  The short
    compose ("i" or "a") then reports "Message sent" and otherwise "Message
    wasn't sent"; the long compose ("I" or "A") runs the editor command first
    and drops an empty text without a word.  Neither changes the Model. *)
Theorem compose_sends_only_text (r : Z) (a : Answers) (m : Model) :
  (forall keys,
     keys ∈ ["i"; "a"] ->
     events (handle_msgs_key r keys a) m
     = Log INFO "Pressed keys: %s"
       :: match input a with
          | Some msg =>
              if truthy_str msg
              then ModelSendMessage msg :: status_events "Info" "Message sent"
              else status_events "Info" "Message wasn't sent"
          | None => status_events "Info" "Message wasn't sent"
          end
     /\ final (handle_msgs_key r keys a) m = m)
  /\ (forall keys,
        keys ∈ ["I"; "A"] ->
        events (handle_msgs_key r keys a) m
        = Log INFO "Pressed keys: %s"
          :: SuspendCall (long_msg_cmd (tmp_name a))
          :: (if truthy_str (edited a)
              then ModelSendMessage (edited a)
                   :: status_events "Info" "Message sent"
              else [])
        /\ final (handle_msgs_key r keys a) m = m).
Proof.
  split; intros keys Hk;
    repeat (apply elem_of_cons in Hk as [->|Hk]);
    try (by apply elem_of_nil in Hk);
    split; simpl; keys_of_modes; ctl; cases; try done; by destruct m.
Qed.

(** X12. Editing a text message of the local user runs the editor on the
    temporary file; a non-empty result makes exactly one edit call with that
    text and reports "Message edited", an empty one does nothing more. *)
Theorem edit_own_text_message (a : Answers) (m : Model) :
  is_me m (sender_user_id (current_msg m)) = true ->
  is_text (content (current_msg m)) = true ->
  events (edit_msg a) m
  = Log INFO "Editing msg: %s"
    :: SuspendCall (editor ++ " " ++ tmp_name a)
    :: (if truthy_str (edited a)
        then ModelEditMessage (edited a)
             :: status_events "Info" "Message edited"
        else [])
  /\ final (edit_msg a) m = m.
Proof.
  intros Hme Htext. keys_of_modes. ctl. known. cases; split; try done;
    by destruct m.
Qed.

(** X13. With a path that names a file, [send_file] makes one send call
    with the path and the selected chat's id ([None] when no chat is
    selected) and reports "File sent"; the video branch makes its call with
    the probed resolution and duration and writes nothing on the status
    line. *)
Theorem send_file_sends_once (a : Answers) (kind : MediaKind) (m : Model)
    (path : string) :
  input a = Some path ->
  truthy_str path = true ->
  isfile path = true ->
  events (send_file a kind) m
  = TgSendFile kind path (id_by_index (chats m) (current_chat m))
    :: status_events "Info" "File sent"
  /\ final (send_file a kind) m = m
  /\ events (send_video a) m
     = [TgSendVideo path (id_by_index (chats m) (current_chat m))
          (fst (get_video_resolution path)) (snd (get_video_resolution path))
          (get_duration path)]
  /\ final (send_video a) m = m.
Proof.
  intros Hin Ht Hf. keys_of_modes. ctl. known.
  destruct (get_video_resolution path); simpl.
  repeat split; try done; by destruct m.
Qed.

(** X14. [send_voice] always runs the recorder first; it sends the
    recording, with its probed duration and waveform, and reports it only if
    the answer is a yes and the recording exists, and otherwise does nothing
    more. *)
Theorem send_voice_needs_consent_and_a_recording (a : Answers) (m : Model) :
  events (send_voice a) m
  = SuspendCall (record_cmd (voice_path a))
    :: (if is_yes (input a) && isfile (voice_path a)
        then TgSendVoice (voice_path a)
               (id_by_index (chats m) (current_chat m))
               (get_duration (voice_path a)) (get_waveform (voice_path a))
             :: status_events "Info" ("Sent voice msg: " ++ voice_path a)
        else [])
  /\ final (send_voice a) m = m.
Proof.
  keys_of_modes. ctl. cases; split; try done; by destruct m.
Qed.

(** X15. Opening the current message changes nothing, draws nothing and
    calls no backend: a text is opened from the temporary file, another
    message from its local path, and a message whose file has no local path
    yet is not opened at all. *)
Theorem open_current_msg_only_opens (a : Answers) (m : Model) :
  final (open_current_msg a) m = m
  /\ backend_calls (events (open_current_msg a) m) = []
  /\ draws (events (open_current_msg a) m) = []
  /\ events (open_current_msg a) m
     = Log INFO "Open msg: %s"
       :: (if is_text (content (current_msg m))
           then [SuspendOpenFile (tmp_name a)]
           else if truthy_str (local_path (local (content (current_msg m))))
                then [Log INFO "Opening file: %s";
                      SuspendOpenFile
                        (local_path (local (content (current_msg m))))]
                else []).
Proof.
  keys_of_modes. ctl. cases; repeat split; try done; by destruct m.
Qed.

(** X16. On a message that carries a file the key "D" registers the file
    for the message, makes one download_file call and reports "File
    downloaded" at once, while the file is still in the registry of pending
    downloads. *)
Theorem D_key_starts_a_download (r : Z) (a : Answers) (m : Model) (f : Z) :
  file_id (content (current_msg m)) = Some f ->
  f <> 0 ->
  events (handle_msgs_key r "D" a) m
  = ([Log INFO "Pressed keys: %s"; Log DEBUG "Downloading msg: %s";
      Log INFO "Downloading file: file_id=%s"; TgDownloadFile f;
      Log INFO "Downloaded: file_id=%s"]
     ++ status_events "Info" "File downloaded")%list
  /\ downloads (final (handle_msgs_key r "D" a) m) !! f
     = Some (msg_chat_id (current_msg m), msg_id (current_msg m))
  /\ forall g, g <> f ->
       downloads (final (handle_msgs_key r "D" a) m) !! g = downloads m !! g.
Proof.
  intros Hf Hnz.
  assert (Ht : truthy_Z f = true)
    by (unfold truthy_Z; destruct (Z.eqb_spec f 0); [contradiction | done]).
  simpl. keys_of_modes. ctl. known.
  split; [done|]. split; [apply lookup_insert_eq|].
  intros g Hg. by apply lookup_insert_ne.
Qed.

End Keys.


Section Registry.
Context `{C : Collaborators}.

Lemma new_msg_registry (m : Model) (msg : Msg) :
  downloads (final (update_new_msg msg) m)
  = (if carries_file msg && (size (content msg) <=? max_download_size)%Z
     then match file_id (content msg) with
          | Some f => <[f := (msg_chat_id msg, msg_id msg)]> (downloads m)
          | None => downloads m
          end
     else downloads m)
  /\ download_calls (events (update_new_msg msg) m)
     = (if carries_file msg && (size (content msg) <=? max_download_size)%Z
        then match file_id (content msg) with
             | Some f => [f]
             | None => []
             end
        else [])
  /\ msgs (final (update_new_msg msg) m)
     = add_message (msg_chat_id msg) msg (msgs m).
Proof.
  unfold carries_file. handlers. ctl. cases; done.
Qed.

(** X17. The size ceiling of the automatic download is inclusive: a new
    message whose file has exactly [max_download_size] bytes is downloaded,
    one whose file is larger is not, and then the registry is left as it
    was. *)
Theorem download_ceiling_is_inclusive (m : Model) (msg : Msg) (f : Z) :
  file_id (content msg) = Some f ->
  f <> 0 ->
  (size (content msg) = max_download_size ->
   download_calls (events (update_new_msg msg) m) = [f]
   /\ downloads (final (update_new_msg msg) m) !! f
      = Some (msg_chat_id msg, msg_id msg))
  /\ (max_download_size < size (content msg) ->
      download_calls (events (update_new_msg msg) m) = []
      /\ downloads (final (update_new_msg msg) m) = downloads m).
Proof.
  intros Hf Hnz.
  assert (Ht : truthy_Z f = true)
    by (unfold truthy_Z; destruct (Z.eqb_spec f 0); [contradiction | done]).
  destruct (new_msg_registry m msg) as (Hd & Hc & _).
  unfold carries_file in Hd, Hc. rewrite Hf, Ht in Hd, Hc. simpl in Hd, Hc.
  split; intros Hs.
  - assert (Hle : (size (content msg) <=? max_download_size)%Z = true)
      by (apply Z.leb_le; lia).
    rewrite Hle in Hd, Hc. rewrite Hd, Hc. split; [done|].
    apply lookup_insert_eq.
  - assert (Hgt : (size (content msg) <=? max_download_size)%Z = false)
      by (apply Z.leb_gt; lia).
    rewrite Hgt in Hd, Hc. done.
Qed.

(** X18. Round trip of the registry: when a new message starts a download
    of a file that was not registered, and the Store then holds the message
    in its chat's list, the file-status event that reports the file fully
    local puts the registry back to what it was before the message. *)
Theorem completed_download_leaves_the_registry (m : Model) (msg : Msg)
    (f : Z) (file_local : LocalFile) (l : list Msg) (i : nat) (stored : Msg) :
  file_id (content msg) = Some f ->
  f <> 0 ->
  size (content msg) <= max_download_size ->
  downloads m !! f = None ->
  add_message (msg_chat_id msg) msg (msgs m) !! msg_chat_id msg = Some l ->
  find_msg (msg_id msg) 0 l = Some (i, stored) ->
  is_downloading_completed file_local = true ->
  downloads (final (update_new_msg msg) m) !! f
  = Some (msg_chat_id msg, msg_id msg)
  /\ downloads (final (update_file f file_local) (final (update_new_msg msg) m))
     = downloads m.
Proof.
  intros Hf Hnz Hsize Hfree Hl Hfound Hdone.
  assert (Ht : truthy_Z f = true)
    by (unfold truthy_Z; destruct (Z.eqb_spec f 0); [contradiction | done]).
  assert (Hle : (size (content msg) <=? max_download_size)%Z = true)
    by (apply Z.leb_le; lia).
  destruct (new_msg_registry m msg) as (Hd & _ & Hm).
  unfold carries_file in Hd. rewrite Hf, Ht, Hle in Hd. simpl in Hd.
  assert (Hreg : downloads (final (update_new_msg msg) m) !! f
                 = Some (msg_chat_id msg, msg_id msg))
    by (rewrite Hd; apply lookup_insert_eq).
  split; [exact Hreg|].
  rewrite <- Hm in Hl. clear Hm.
  remember (final (update_new_msg msg) m) as m1 eqn:E. clear E.
  handlers. ctl. rewrite Hreg. simpl. rewrite Hl. simpl. rewrite Hfound.
  simpl. cases; simpl; rewrite delete_insert_eq; by apply delete_id.
Qed.

(** X19. The registry is keyed by the file id alone: a second download of
    the same file, for another message, makes a second download_file call
    and replaces the entry of the first. *)
Theorem registry_is_keyed_by_file_id (f chat1 msg1 chat2 msg2 : Z)
    (m : Model) :
  download_calls (events (download f chat1 msg1 ;; download f chat2 msg2) m)
  = [f; f]
  /\ downloads (final (download f chat1 msg1 ;; download f chat2 msg2) m)
     = <[f := (chat2, msg2)]> (downloads m).
Proof.
  unfold download. ctl. split; [done|]. apply insert_insert_eq.
Qed.

(** X20. A file-status event for a registered file whose chat has no
    message list in the Store is not fatal: nothing is drawn, no backend
    call is made, and the chat list and the registry stay as they are. *)
Theorem update_file_without_a_message_list (m : Model) (file : Z)
    (file_local : LocalFile) (chat id : Z) :
  downloads m !! file = Some (chat, id) ->
  msgs m !! chat = None ->
  outcome (update_file file file_local) m = Ok tt
  /\ draws (events (update_file file file_local) m) = []
  /\ backend_calls (events (update_file file file_local) m) = []
  /\ downloads (final (update_file file file_local) m) = downloads m
  /\ chats (final (update_file file file_local) m) = chats m.
Proof.
  intros Hd Hm. handlers. ctl. rewrite Hd, Hm. done.
Qed.


End Registry.

Section Notifications.
Context `{C : Collaborators}.

Lemma new_msg_notified (m : Model) (msg : Msg) :
  (notifications (events (update_new_msg msg) m) <> []
   <-> match chat_after_scan None (msg_chat_id msg) (chats m) with
       | Some c => truthy_Z (mute_for (notification_settings c))
       | None => false
       end = false
       /\ is_me m (sender_user_id msg) = false)
  /\ (length (notifications (events (update_new_msg msg) m)) <= 1)%nat.
Proof.
  handlers. unfold is_me. ctl.
  cases; (split; [split; [done | intros [? ?]; congruence] | lia]).
Qed.

(** X22. When the chat of a new message is not in the chat list but other
    chats are, the mute setting that decides is the one of the last chat of
    the list: the notification is raised exactly when that chat's mute_for
    is 0 and the sender is not the local user. *)
Theorem unlisted_chat_takes_the_last_chats_mute (m : Model) (msg : Msg)
    (c : Chat) :
  lookup_chat (msg_chat_id msg) (chats m) = None ->
  last (chats m) = Some c ->
  notifications (events (update_new_msg msg) m) <> []
  <-> mute_for (notification_settings c) = 0 /\ sender_user_id msg <> me_id m.
Proof.
  intros Hnone Hlast.
  rewrite (proj1 (new_msg_notified m msg)).
  rewrite chat_after_scan_spec, Hnone, Hlast. unfold truthy_Z, is_me.
  destruct (Z.eqb_spec (mute_for (notification_settings c)) 0);
    destruct (bool_decide_reflect (me_id m = sender_user_id msg));
    simpl; split; intros [? ?]; try done; congruence.
Qed.

(** X23. A new message of the local user never raises a notification,
    whatever the chat list; and with no chat loaded at all, a message of
    anybody else raises exactly one. *)
Theorem own_messages_never_notify (m : Model) (msg : Msg) :
  (is_me m (sender_user_id msg) = true ->
   notifications (events (update_new_msg msg) m) = [])
  /\ (chats m = [] ->
      is_me m (sender_user_id msg) = false ->
      length (notifications (events (update_new_msg msg) m)) = 1%nat).
Proof.
  destruct (new_msg_notified m msg) as [Hiff Hlen]. split.
  - intros Hme.
    destruct (notifications (events (update_new_msg msg) m)) as [|n l] eqn:E;
      [reflexivity|].
    assert (Hne : n :: l <> []) by discriminate.
    apply Hiff in Hne as [_ Hne]. congruence.
  - intros Hnil Hme.
    assert (Hne : notifications (events (update_new_msg msg) m) <> []).
    { apply Hiff. rewrite Hnil. done. }
    destruct (notifications (events (update_new_msg msg) m)) as [|n l];
      [done | simpl in *; lia].
Qed.

End Notifications.

Section Rendering.
Context `{C : Collaborators}.

(** X24. [render] changes nothing in the Model and draws, under the lock
    and in this order, the chat pane, the message pane if the chat has a
    message cursor, and the bare status line.  The selected row it passes is
    the selection index as long as that is at most two below the pane's
    height, and two below the pane's height from there on: already for the
    last row of the first page, at the height minus one, and below zero when
    the pane has fewer than two rows. *)
Theorem render_caps_the_selected_row (m : Model) :
  let selected :=
    Z.min (Z.of_nat (current_chat m)) (chats_h - MSGS_LEFT_SCROLL_THRESHOLD) in
  events render m
  = (LockAcquire
     :: DrawChats selected
          (get_chats m (current_chat m) chats_h MSGS_LEFT_SCROLL_THRESHOLD)
     :: events refresh_msgs m ++ [DrawStatus None; LockRelease])%list
  /\ final render m = m
  /\ selected <= Z.of_nat (current_chat m)
  /\ selected <= chats_h - 2
  /\ (Z.of_nat (current_chat m) <= chats_h - 2 ->
      selected = Z.of_nat (current_chat m))
  /\ (chats_h - 2 <= Z.of_nat (current_chat m) -> selected = chats_h - 2)
  /\ (Z.of_nat (current_chat m) = chats_h - 1 -> selected = chats_h - 2)
  /\ (chats_h < 2 -> selected < 0).
Proof.
  unfold MSGS_LEFT_SCROLL_THRESHOLD. simpl.
  split; [handlers; ctl; cases; done|].
  split; [handlers; ctl; cases; by destruct m|].
  repeat split; lia.
Qed.

(** X25. Entering the message list with "l" and leaving it with "h" erases
    the screen, resizes the panes and renders twice, first with the pane
    share 0.2 and then with 0.5, and changes nothing in the Model. *)
Theorem enter_and_leave_message_mode (r r' : Z) (a a' : Answers) (w : World) :
  loop ChatList [mkKeyPress r "l" a; mkKeyPress r' "h" a'] w
  = (Ok ChatList,
     mkWorld (model w) Half
       (trace w
        ++ [Log INFO "Pressed keys: %s"; StdscrErase; StdscrNoutrefresh;
            ResizePanes Fifth]
        ++ events render (model w)
        ++ [Log INFO "Pressed keys: %s"; StdscrErase; StdscrNoutrefresh;
            ResizePanes Half]
        ++ events render (model w))%list).
Proof.
  simpl. unfold step. keys_of_modes. ctl.
  cases; rewrite <- ?app_assoc; reflexivity.
Qed.

(** X26. No update handler and no key of either mode takes the lock while
    it holds it (the lock is not reentrant), and each one has given the lock
    back when it ends. *)
Theorem lock_is_taken_and_released_in_turn (u : Update) (r : Z)
    (keys : string) (a : Answers) (m : Model) :
  lock_balanced false (events (dispatch u) m) = true
  /\ lock_balanced false (events (handle_chats_key r keys) m) = true
  /\ lock_balanced false (events (handle_msgs_key r keys a) m) = true.
Proof.
  split; [|split].
  - destruct u; handlers; ctl; cases; reflexivity.
  - keys_of_modes. ctl. cases; reflexivity.
  - keys_of_modes. ctl. cases; reflexivity.
Qed.

End Rendering.

Module GateMore.
Import Gate.

(** A thread that waits for a lock it holds itself waits for ever: the other
    thread cannot give the lock back. *)
Lemma blocked_behind_own_lock (tail : list Action) (schedule : list Thread) :
  forall st st' k,
    lock st = Some MainThread ->
    todo (main_thread st) = (repeat Skip k ++ Acquire :: tail)%list ->
    run schedule st = Some st' ->
    lock st' = Some MainThread
    /\ exists k', todo (main_thread st') = (repeat Skip k' ++ Acquire :: tail)%list.
Proof.
  induction schedule as [|t rest IH]; intros st st' k Hlock Htodo Hrun;
    simpl in Hrun.
  - inversion Hrun; subst. eauto.
  - destruct (step t st) as [st1|] eqn:Hstep; [|discriminate].
    assert (H1 : lock st1 = Some MainThread
                 /\ exists k1, todo (main_thread st1)
                               = (repeat Skip k1 ++ Acquire :: tail)%list).
    { unfold step in Hstep. destruct st as [lk [pm dm] [pu du]].
      simpl in *. subst lk.
      destruct t; simpl in *.
      - subst pm. destruct k as [|k]; simpl in *; [discriminate|].
        inversion Hstep; subst; simpl. eauto.
      - destruct pu as [|[] pu]; simpl in *; try discriminate;
          try (inversion Hstep; subst; simpl; eauto). }
    destruct H1 as [Hl1 [k1 Ht1]]. eapply IH; eassumption.
Qed.

Section Signals.
Context `{C : Collaborators}.

Lemma handle_chats_key_gated (r : Z) (keys : string) (m : Model) :
  gated false false (program (events (handle_chats_key r keys) m)) = true.
Proof. keys_of_modes. ctl. cases; reflexivity. Qed.

Lemma chat_level_gated (u : Update) (m : Model) :
  chat_level u = true ->
  gated false false (program (events (dispatch u) m)) = true.
Proof.
  destruct u; simpl; intros H; try discriminate; handlers; ctl; cases;
    reflexivity.
Qed.

(** X27. Whatever key the main thread handles in the chat list and
    whatever chat-level update the update thread handles, no pane draw of one
    thread begins while a pane draw of the other is in progress, under any
    schedule. *)
Theorem chat_list_keys_and_chat_updates_exclude (r : Z) (keys : string)
    (m m' : Model) (u : Update) (schedule : list Thread) (st : State) :
  chat_level u = true ->
  run schedule
    (init (program (events (handle_chats_key r keys) m))
       (program (events (dispatch u) m')))
  = Some st ->
  overlap st = false.
Proof.
  intros Hu. apply GateFacts.gate_excludes_overlap;
    [apply handle_chats_key_gated | by apply chat_level_gated].
Qed.

Lemma resize_handler_program (m : Model) :
  exists tail,
    program (events resize_handler m) = (repeat Skip 5 ++ Acquire :: tail)%list.
Proof.
  exists (drop 6 (program (events resize_handler m))).
  rewrite <- (take_drop 6 (program (events resize_handler m))) at 1.
  replace (take 6 (program (events resize_handler m)))
    with (repeat Skip 5 ++ [Acquire])%list.
  - rewrite <- app_assoc. reflexivity.
  - unfold resize_handler, resize. handlers. ctl. cases; reflexivity.
Qed.

(** X28. [resize_handler] is not safe to run on a thread that holds the
    lock: when it starts while its thread is inside [render] or
    [update_status], its own [render] waits for the lock for ever, the thread
    never returns to what it was doing, and the lock is never given back. *)
Theorem resize_handler_blocks_under_the_lock (m : Model)
    (interrupted : list Action) (drawing : bool) (other : ThreadState)
    (schedule : list Thread) (st : State) :
  run schedule
    (mkState (Some MainThread)
       (mkThreadState (program (events resize_handler m) ++ interrupted)
          drawing)
       other)
  = Some st ->
  lock st = Some MainThread
  /\ (length interrupted < length (todo (main_thread st)))%nat.
Proof.
  intros Hrun.
  destruct (resize_handler_program m) as [tail Hp].
  assert (Hq : (program (events resize_handler m) ++ interrupted
                = repeat Skip 5 ++ Acquire :: tail ++ interrupted)%list)
    by (rewrite Hp, <- app_assoc; reflexivity).
  destruct (blocked_behind_own_lock (tail ++ interrupted) schedule
              (mkState (Some MainThread)
                 (mkThreadState
                    (program (events resize_handler m) ++ interrupted) drawing)
                 other)
              st 5%nat eq_refl Hq Hrun) as [Hl [k Hk]].
  split; [exact Hl|]. rewrite Hk.
  rewrite length_app. simpl. rewrite length_app. lia.
Qed.

End Signals.
End GateMore.

(** *** The properties on sample data *)

Lemma new_message_of_a_background_chat :
  (message_chat (UpdateNewMessage (Reference.text 31 2 7 "hey")) = Some 2
   /\ id_by_index (chats Reference.two_chats) (current_chat Reference.two_chats)
      <> Some 2)
  /\ draws (events (dispatch (UpdateNewMessage (Reference.text 31 2 7 "hey")))
              Reference.two_chats) = []
  /\ chats (final (dispatch (UpdateNewMessage (Reference.text 31 2 7 "hey")))
              Reference.two_chats) = chats Reference.two_chats
  /\ current_chat
       (final (dispatch (UpdateNewMessage (Reference.text 31 2 7 "hey")))
          Reference.two_chats) = current_chat Reference.two_chats.
Proof.
  assert (H : id_by_index (chats Reference.two_chats)
                (current_chat Reference.two_chats) <> Some 2) by discriminate.
  split; [split; [reflexivity | exact H]|].
  exact (background_message_update_is_silent
           (UpdateNewMessage (Reference.text 31 2 7 "hey")) 2
           Reference.two_chats eq_refl H).
Defined.

Lemma new_message_of_the_selected_chat_off_the_gate :
  message_chat (UpdateNewMessage (Reference.text 12 1 7 "ping")) = Some 1
  /\ forallb off_gate
       (events (dispatch (UpdateNewMessage (Reference.text 12 1 7 "ping")))
          Reference.two_chats) = true
  /\ status_texts
       (events (dispatch (UpdateNewMessage (Reference.text 12 1 7 "ping")))
          Reference.two_chats) = [].
Proof.
  split; [reflexivity|].
  exact (message_updates_stay_off_the_gate
           (UpdateNewMessage (Reference.text 12 1 7 "ping")) 1
           Reference.two_chats eq_refl).
Defined.

Lemma mute_key_without_a_selection :
  (chats Samples.no_selection !! current_chat Samples.no_selection = None
   /\ "m" ∈ ["u"; "p"; "r"; "m"])
  /\ outcome (handle_chats_key 1 "m") Samples.no_selection = Raise IndexError
  /\ events (handle_chats_key 1 "m") Samples.no_selection
     = [Log INFO "Pressed keys: %s"]
  /\ final (handle_chats_key 1 "m") Samples.no_selection = Samples.no_selection
  /\ events (run [press "m"; press "j"]) Samples.no_selection
     = (events (run []) Samples.no_selection
        ++ [Log INFO "Pressed keys: %s";
            Log ERROR "Error happened in main loop"])%list.
Proof.
  assert (H : "m" ∈ ["u"; "p"; "r"; "m"]) by (repeat constructor).
  split; [split; [reflexivity | exact H]|].
  exact (selection_keys_fail_without_a_chat 1 "m"
           (mkAnswers None EmptyString EmptyString EmptyString) [press "j"]
           Samples.no_selection eq_refl H).
Defined.

Lemma unread_key_pressed_twice :
  chats Reference.two_chats !! current_chat Reference.two_chats
  = Some (Reference.a_chat 1 5 0)
  /\ backend_calls (events (loop ChatList [press "u"; press "u"])
                      Reference.two_chats)
     = [TgToggleChatIsMarkedAsUnread 1 true;
        TgToggleChatIsMarkedAsUnread 1 true]
  /\ final (handle_chats_key 1 "r") Reference.two_chats = Reference.two_chats.
Proof.
  split; [reflexivity|].
  destruct (unread_pin_read_keys_leave_the_store 1 Reference.two_chats
              (Reference.a_chat 1 5 0) eq_refl)
    as (_ & _ & [_ Hr] & Hu & _).
  split; [exact Hu | exact Hr].
Defined.

Lemma key_without_a_branch :
  key_in "x" chat_list_keys = false
  /\ handle_chats_key 1 "x" (mkWorld Reference.two_chats Half [])
     = (Ok ChatList,
        mkWorld Reference.two_chats Half [Log INFO "Pressed keys: %s"]).
Proof.
  split; [reflexivity|].
  exact (proj1 (unknown_keys_are_ignored 1 "x" (Reference.typed "x")
                  (mkWorld Reference.two_chats Half [])) eq_refl).
Defined.


Lemma edit_of_an_own_draft :
  (is_me Samples.own_text (sender_user_id (current_msg Samples.own_text)) = true
   /\ is_text (content (current_msg Samples.own_text)) = true)
  /\ events (edit_msg (Samples.answered "x" "final")) Samples.own_text
     = [Log INFO "Editing msg: %s"; SuspendCall "vim /tmp/tmpab12.txt";
        ModelEditMessage "final"; LockAcquire;
        DrawStatus (Some "Info: Message edited"); LockRelease]
  /\ final (edit_msg (Samples.answered "x" "final")) Samples.own_text
     = Samples.own_text.
Proof.
  split; [split; reflexivity|].
  exact (edit_own_text_message (Samples.answered "x" "final") Samples.own_text
           eq_refl eq_refl).
Defined.

Lemma photo_sent_from_an_existing_file :
  (input (Reference.typed "/home/me/cat.png") = Some "/home/me/cat.png"
   /\ truthy_str "/home/me/cat.png" = true
   /\ isfile "/home/me/cat.png" = true)
  /\ events (send_file (Reference.typed "/home/me/cat.png") Photo)
       Reference.two_chats
     = [TgSendFile Photo "/home/me/cat.png" (Some 1); LockAcquire;
        DrawStatus (Some "Info: File sent"); LockRelease]
  /\ events (send_file (Reference.typed "/home/me/cat.png") Photo)
       Samples.no_selection
     = [TgSendFile Photo "/home/me/cat.png" None; LockAcquire;
        DrawStatus (Some "Info: File sent"); LockRelease].
Proof.
  split; [repeat split|].
  split.
  - exact (proj1 (send_file_sends_once (Reference.typed "/home/me/cat.png")
                    Photo Reference.two_chats "/home/me/cat.png"
                    eq_refl eq_refl eq_refl)).
  - exact (proj1 (send_file_sends_once (Reference.typed "/home/me/cat.png")
                    Photo Samples.no_selection "/home/me/cat.png"
                    eq_refl eq_refl eq_refl)).
Defined.

Lemma D_key_on_a_photo :
  (file_id (content (current_msg Reference.pending)) = Some 70 /\ 70 <> 0)
  /\ download_calls (events (handle_msgs_key 1 "D" (Reference.typed "x"))
                       Reference.pending) = [70]
  /\ downloads (final (handle_msgs_key 1 "D" (Reference.typed "x"))
                  Reference.pending) !! 70 = Some (2, 21).
Proof.
  assert (H : 70 <> 0) by discriminate.
  assert (H0 : file_id (content (current_msg Reference.pending)) = Some 70)
    by reflexivity.
  split; [split; [exact H0 | exact H]|].
  destruct (D_key_starts_a_download 1 (Reference.typed "x") Reference.pending
              70 H0 H) as (He & Hd & _).
  split; [rewrite He; reflexivity | exact Hd].
Defined.

Lemma photo_of_exactly_the_ceiling :
  (file_id (content (Reference.photo 22 2 7 71 10485760)) = Some 71
   /\ 71 <> 0
   /\ size (content (Reference.photo 22 2 7 71 10485760)) = max_download_size
   /\ max_download_size < size (content (Reference.photo 23 2 7 72 10485761)))
  /\ download_calls
       (events (update_new_msg (Reference.photo 22 2 7 71 10485760))
          Reference.two_chats) = [71]
  /\ download_calls
       (events (update_new_msg (Reference.photo 23 2 7 72 10485761))
          Reference.two_chats) = [].
Proof.
  assert (H1 : 71 <> 0) by discriminate.
  assert (H2 : 72 <> 0) by discriminate.
  split; [repeat split; done|].
  split.
  - exact (proj1 (proj1 (download_ceiling_is_inclusive Reference.two_chats
                           (Reference.photo 22 2 7 71 10485760) 71 eq_refl H1)
                    eq_refl)).
  - exact (proj1 (proj2 (download_ceiling_is_inclusive Reference.two_chats
                           (Reference.photo 23 2 7 72 10485761) 72 eq_refl H2)
                    eq_refl)).
Defined.

Lemma photo_downloaded_and_completed :
  (file_id (content (Reference.photo 22 2 7 71 2048)) = Some 71
   /\ 71 <> 0
   /\ size (content (Reference.photo 22 2 7 71 2048)) <= max_download_size
   /\ downloads Reference.two_chats !! 71 = None
   /\ add_message 2 (Reference.photo 22 2 7 71 2048) (msgs Reference.two_chats)
      !! 2
      = Some [Reference.photo 21 2 7 70 2048; Reference.photo 22 2 7 71 2048]
   /\ find_msg 22 0
        [Reference.photo 21 2 7 70 2048; Reference.photo 22 2 7 71 2048]
      = Some (1%nat, Reference.photo 22 2 7 71 2048))
  /\ downloads
       (final (update_file 71 (mkLocalFile true "/home/me/71.jpg"))
          (final (update_new_msg (Reference.photo 22 2 7 71 2048))
             Reference.two_chats))
     = downloads Reference.two_chats.
Proof.
  assert (H1 : 71 <> 0) by discriminate.
  assert (H2 : size (content (Reference.photo 22 2 7 71 2048))
               <= max_download_size) by (vm_compute; discriminate).
  split; [repeat split; done|].
  exact (proj2 (completed_download_leaves_the_registry Reference.two_chats
                  (Reference.photo 22 2 7 71 2048) 71
                  (mkLocalFile true "/home/me/71.jpg")
                  [Reference.photo 21 2 7 70 2048;
                   Reference.photo 22 2 7 71 2048]
                  1%nat (Reference.photo 22 2 7 71 2048)
                  eq_refl H1 H2 eq_refl eq_refl eq_refl eq_refl)).
Defined.

Lemma file_status_for_an_orphan_download :
  (downloads Samples.orphan_download !! 70 = Some (2, 21)
   /\ msgs Samples.orphan_download !! 2 = None)
  /\ outcome (update_file 70 (mkLocalFile true "/home/me/70.jpg"))
       Samples.orphan_download = Ok tt
  /\ draws (events (update_file 70 (mkLocalFile true "/home/me/70.jpg"))
              Samples.orphan_download) = []
  /\ backend_calls
       (events (update_file 70 (mkLocalFile true "/home/me/70.jpg"))
          Samples.orphan_download) = []
  /\ downloads (final (update_file 70 (mkLocalFile true "/home/me/70.jpg"))
                  Samples.orphan_download)
     = downloads Samples.orphan_download
  /\ chats (final (update_file 70 (mkLocalFile true "/home/me/70.jpg"))
              Samples.orphan_download)
     = chats Samples.orphan_download.
Proof.
  split; [split; reflexivity|].
  exact (update_file_without_a_message_list Samples.orphan_download 70
           (mkLocalFile true "/home/me/70.jpg") 2 21 eq_refl eq_refl).
Defined.


Lemma unlisted_chat_and_a_muted_last_chat :
  (lookup_chat (msg_chat_id (Reference.text 31 5 7 "ping"))
     (chats Reference.muted_chat) = None
   /\ last (chats Reference.muted_chat) = Some (Reference.a_chat 2 10 3600))
  /\ (notifications
        (events (update_new_msg (Reference.text 31 5 7 "ping"))
           Reference.muted_chat) <> []
      <-> mute_for (notification_settings (Reference.a_chat 2 10 3600)) = 0
          /\ sender_user_id (Reference.text 31 5 7 "ping")
             <> me_id Reference.muted_chat).
Proof.
  split; [split; reflexivity|].
  exact (unlisted_chat_takes_the_last_chats_mute Reference.muted_chat
           (Reference.text 31 5 7 "ping") (Reference.a_chat 2 10 3600)
           eq_refl eq_refl).
Defined.

Lemma own_message_in_an_unmuted_chat :
  is_me Reference.two_chats (sender_user_id (Reference.text 13 1 1 "me")) = true
  /\ notifications
       (events (update_new_msg (Reference.text 13 1 1 "me"))
          Reference.two_chats) = [].
Proof.
  split; [reflexivity|].
  exact (proj1 (own_messages_never_notify Reference.two_chats
                  (Reference.text 13 1 1 "me")) eq_refl).
Defined.

Lemma key_and_title_update_interleaved :
  chat_level (UpdateChatTitle 2 "renamed") = true
  /\ is_Some
       (Gate.run
          [Gate.MainThread; Gate.MainThread; Gate.UpdateThread;
           Gate.MainThread]
          (Gate.init
             (Gate.program
                (events (handle_chats_key 1 "k") Reference.two_chats))
             (Gate.program
                (events (dispatch (UpdateChatTitle 2 "renamed"))
                   Reference.two_chats))))
  /\ match
       Gate.run
         [Gate.MainThread; Gate.MainThread; Gate.UpdateThread;
          Gate.MainThread]
         (Gate.init
            (Gate.program (events (handle_chats_key 1 "k") Reference.two_chats))
            (Gate.program
               (events (dispatch (UpdateChatTitle 2 "renamed"))
                  Reference.two_chats)))
     with
     | Some st => Gate.overlap st = false
     | None => True
     end.
Proof.
  split; [reflexivity|]. split; [vm_compute; eauto|].
  destruct (Gate.run _ _) as [st|] eqn:E; [|exact I].
  exact (GateMore.chat_list_keys_and_chat_updates_exclude 1 "k"
           Reference.two_chats Reference.two_chats
           (UpdateChatTitle 2 "renamed") _ st eq_refl E).
Defined.

Lemma resize_during_a_render :
  is_Some
    (Gate.run
       [Gate.MainThread; Gate.MainThread; Gate.MainThread; Gate.MainThread;
        Gate.MainThread]
       (Gate.mkState (Some Gate.MainThread)
          (Gate.mkThreadState
             (Gate.program (events resize_handler Reference.two_chats)
              ++ [Gate.DrawEnd; Gate.Release]) true)
          (Gate.mkThreadState [] false)))
  /\ Gate.run
       [Gate.MainThread; Gate.MainThread; Gate.MainThread; Gate.MainThread;
        Gate.MainThread; Gate.MainThread]
       (Gate.mkState (Some Gate.MainThread)
          (Gate.mkThreadState
             (Gate.program (events resize_handler Reference.two_chats)
              ++ [Gate.DrawEnd; Gate.Release]) true)
          (Gate.mkThreadState [] false))
     = None
  /\ match
       Gate.run
         [Gate.MainThread; Gate.MainThread; Gate.MainThread; Gate.MainThread;
          Gate.MainThread]
         (Gate.mkState (Some Gate.MainThread)
            (Gate.mkThreadState
               (Gate.program (events resize_handler Reference.two_chats)
                ++ [Gate.DrawEnd; Gate.Release]) true)
            (Gate.mkThreadState [] false))
     with
     | Some st =>
         Gate.lock st = Some Gate.MainThread
         /\ (2 < length (Gate.todo (Gate.main_thread st)))%nat
     | None => True
     end.
Proof.
  split; [vm_compute; eauto|]. split; [reflexivity|].
  destruct (Gate.run _ _) as [st|] eqn:E; [|exact I].
  exact (GateMore.resize_handler_blocks_under_the_lock Reference.two_chats
           [Gate.DrawEnd; Gate.Release] true (Gate.mkThreadState [] false)
           _ st E).
Defined.

Lemma compose_with_the_other_keys :
  ("a" ∈ ["i"; "a"] /\ "A" ∈ ["I"; "A"])
  /\ events (handle_msgs_key 1 "a" (Samples.answered "hello" "long text"))
       Reference.two_chats
     = [Log INFO "Pressed keys: %s"; ModelSendMessage "hello"; LockAcquire;
        DrawStatus (Some "Info: Message sent"); LockRelease]
  /\ events (handle_msgs_key 1 "A" (Samples.answered "hello" "long text"))
       Reference.two_chats
     = [Log INFO "Pressed keys: %s"; SuspendCall "vim /tmp/tmpab12.txt";
        ModelSendMessage "long text"; LockAcquire;
        DrawStatus (Some "Info: Message sent"); LockRelease].
Proof.
  assert (H1 : "a" ∈ ["i"; "a"]) by (repeat constructor).
  assert (H2 : "A" ∈ ["I"; "A"]) by (repeat constructor).
  split; [split; assumption|].
  destruct (compose_sends_only_text 1 (Samples.answered "hello" "long text")
              Reference.two_chats) as [Hs Hl].
  split; [exact (proj1 (Hs "a" H1)) | exact (proj1 (Hl "A" H2))].
Defined.

Lemma render_on_the_last_row_of_the_first_page :
  Z.of_nat (current_chat Samples.last_row) = chats_h - 1
  /\ Z.min (Z.of_nat (current_chat Samples.last_row))
       (chats_h - MSGS_LEFT_SCROLL_THRESHOLD) = 18.
Proof.
  split; [reflexivity|].
  destruct (render_caps_the_selected_row Samples.last_row)
    as (_ & _ & _ & _ & _ & _ & H & _).
  exact (H eq_refl).
Defined.

(** *** The reference Store at the edges *)

(** A move of the selection ends on a chat of the list, however far the
    target lies beyond an edge. *)
Lemma reference_move_chat_stays_in_range (target : Z) (m : Model) :
  fst (Reference.move_chat target m) = true ->
  (current_chat (snd (Reference.move_chat target m)) < length (chats m))%nat.
Proof.
  unfold Reference.move_chat, Reference.clamp.
  destruct (Nat.eqb_spec (length (chats m)) 0) as [E|E]; simpl;
    [discriminate|].
  destruct (Z.eqb _ _); simpl; [discriminate|]. intros _. lia.
Qed.

Lemma reference_ten_chats_down_from_the_top :
  next_chat (Some 10) (set_current_chat 0 Reference.two_chats)
  = (true, Reference.two_chats)
  /\ prev_chat (Some 10) Reference.two_chats
     = (true, set_current_chat 0 Reference.two_chats).
Proof. split; reflexivity. Qed.

(** Deleting the selected message when it is the last of the list leaves
    the cursor on the new last message. *)
Lemma reference_delete_of_the_last_message :
  get_current_chat_msg_idx
    (snd (delete_msg
            (mkModel [Reference.a_chat 1 5 0] 0
               {[ 1 := [Reference.text 11 1 7 "one";
                        Reference.text 12 1 7 "two"] ]}
               {[ 1 := 1 ]} ∅ 1)))
  = Some 0
  /\ Reference.current_list
       (snd (delete_msg
               (mkModel [Reference.a_chat 1 5 0] 0
                  {[ 1 := [Reference.text 11 1 7 "one";
                           Reference.text 12 1 7 "two"] ]}
                  {[ 1 := 1 ]} ∅ 1)))
     = [Reference.text 11 1 7 "one"].
Proof. split; reflexivity. Qed.
